(** * The sidecar bridge of omniagentpay-js (src/bridge.ts)

    A shallow embedding of the [Bridge] class: the line framing of the
    worker's output, the classification of lines, the correlation of
    responses with pending requests, and the start / send / stop life cycle;
    then of the [OmniAgentPay] client that calls it (src/client.ts) and of
    the script that installs the worker (scripts/install.js).

    JavaScript strings are sequences of UTF-16 code units, bytes are
    [Byte.byte], the pending-request [Map] is a [gmap] keyed by the request
    id, and every effect of a method (console output, process control, writes
    to the worker's stdin, settling a promise) is recorded in the list of
    events the method returns together with the new state of the instance. *)

From Stdlib Require Import ZArith NArith Ascii String Strings.Byte DecimalString Sorted.
From stdpp Require Import gmap list.

Set Warnings "-register-all".

Local Open Scope N_scope.

(* ===================================================================== *)
(** ** JavaScript strings *)
(* ===================================================================== *)

Module JsString.

(** A string is the list of its UTF-16 code units. *)
Definition jsstring : Type := list N.

(** [lit "abc"]: the string of an ASCII literal. *)
Definition lit (s : string) : jsstring :=
  map N_of_ascii (list_ascii_of_string s).

(** The same, where an apostrophe of the literal stands for the double
    quote character (U+0022): [litq "{'id':1}"] is the text {"id":1}. *)
Definition litq (s : string) : jsstring :=
  map (fun c => if N.eqb c 39 then 34 else c) (lit s).

Arguments lit s%_string.
Arguments litq s%_string.

(** Truthiness of a string value: only the empty string is falsy. *)
Definition truthy_string (s : jsstring) : bool :=
  match s with [] => false | _ :: _ => true end.

(** [s.split(sep)] for a separator of one code unit. The result is never
    empty: a string without separator is its own single segment. *)
Fixpoint split (sep : N) (s : jsstring) : list jsstring :=
  match s with
  | [] => [[]]
  | c :: s' =>
      if N.eqb c sep then [] :: split sep s'
      else match split sep s' with
           | [] => [[c]]
           | seg :: segs => (c :: seg) :: segs
           end
  end.

(** [a.pop()]: the last element (undefined on an empty array) and the array
    without it. *)
Definition pop {A} (a : list A) : option A * list A :=
  (last a, removelast a).

(** [x || ''] for [x] a string or undefined. *)
Definition or_empty (x : option jsstring) : jsstring :=
  match x with
  | Some s => if truthy_string s then s else []
  | None => []
  end.

(** WhiteSpace and LineTerminator code points, the ones [trim] strips. *)
Definition is_space (c : N) : bool :=
  (N.leb 9 c && N.leb c 13) || N.eqb c 32 || N.eqb c 160 || N.eqb c 5760
  || (N.leb 8192 c && N.leb c 8202) || N.eqb c 8232 || N.eqb c 8233
  || N.eqb c 8239 || N.eqb c 8287 || N.eqb c 12288 || N.eqb c 65279.

Fixpoint trimStart (s : jsstring) : jsstring :=
  match s with
  | [] => []
  | c :: s' => if is_space c then trimStart s' else s
  end.

Definition trimEnd (s : jsstring) : jsstring := rev (trimStart (rev s)).

Definition trim (s : jsstring) : jsstring := trimEnd (trimStart s).

(** [s.startsWith(p)]. *)
Fixpoint startsWith (s p : jsstring) {struct p} : bool :=
  match p, s with
  | [], _ => true
  | _ :: _, [] => false
  | d :: p', c :: s' => N.eqb c d && startsWith s' p'
  end.

(** Number-to-string conversion of an integer (decimal digits, a leading
    minus sign for negatives). *)
Definition of_Z (z : Z) : jsstring :=
  lit (NilZero.string_of_int (Z.to_int z)).

(** The text holds no line terminator U+000A. *)
Definition no_nl (s : jsstring) : Prop := Forall (fun c => c <> 10) s.

End JsString.
Export JsString.

(* ===================================================================== *)
(** ** Buffer.toString(): UTF-8 decoding *)
(* ===================================================================== *)

Module Utf8.

(** State of the decoder between two bytes: the code point under
    construction, the number of continuation bytes still expected, and the
    range the next byte must fall in. *)
Record dstate := DState {
  code_point : N;
  bytes_needed : N;
  lower : N;
  upper : N
}.

Definition dinit : dstate := DState 0 0 128 191.

Definition REPLACEMENT : N := 65533.

(** A lead byte, met when no sequence is open. *)
Definition lead (b : N) : dstate * list N :=
  if N.leb b 127 then (dinit, [b])
  else if N.leb 194 b && N.leb b 223 then (DState (N.land b 31) 1 128 191, [])
  else if N.leb 224 b && N.leb b 239 then
    (DState (N.land b 15) 2 (if N.eqb b 224 then 160 else 128)
            (if N.eqb b 237 then 159 else 191), [])
  else if N.leb 240 b && N.leb b 244 then
    (DState (N.land b 7) 3 (if N.eqb b 240 then 144 else 128)
            (if N.eqb b 244 then 143 else 191), [])
  else (dinit, [REPLACEMENT]).

(** One byte of input: the new state and the code points completed. A byte
    that cannot continue the open sequence closes it with U+FFFD and is then
    read again as a lead byte. *)
Definition dstep (st : dstate) (b : N) : dstate * list N :=
  if N.eqb (bytes_needed st) 0 then lead b
  else if negb (N.leb (lower st) b && N.leb b (upper st)) then
    let '(st', out) := lead b in (st', REPLACEMENT :: out)
  else
    let cp := N.lor (N.shiftl (code_point st) 6) (N.land b 63) in
    if N.eqb (bytes_needed st) 1 then (dinit, [cp])
    else (DState cp (bytes_needed st - 1) 128 191, []).

(** The bytes of a buffer, then its end: a sequence left open at the end of
    the buffer is replaced by U+FFFD. *)
Fixpoint drun (st : dstate) (bs : list N) : list N :=
  match bs with
  | [] => if N.eqb (bytes_needed st) 0 then [] else [REPLACEMENT]
  | b :: bs' => let '(st', out) := dstep st b in out ++ drun st' bs'
  end.

(** The decoder state after the bytes, before the end of the buffer. *)
Fixpoint dafter (st : dstate) (bs : list N) : dstate :=
  match bs with
  | [] => st
  | b :: bs' => dafter (fst (dstep st b)) bs'
  end.

(** A code point as UTF-16: itself, or a surrogate pair above U+FFFF. *)
Definition utf16 (cp : N) : list N :=
  if N.ltb cp 65536 then [cp]
  else [55296 + N.shiftr (cp - 65536) 10; 56320 + N.land (cp - 65536) 1023].

(** [buf.toString()] with the default encoding, UTF-8. *)
Definition toString (buf : list byte) : jsstring :=
  concat (map utf16 (drun dinit (map Byte.to_N buf))).

(** The buffer ends on a character boundary: no sequence is left open. *)
Definition complete (buf : list byte) : bool :=
  N.eqb (bytes_needed (dafter dinit (map Byte.to_N buf))) 0.

End Utf8.

(* ===================================================================== *)
(** ** Numbers and Number::toString *)
(* ===================================================================== *)

Module JsNumber.

Local Open Scope Z_scope.

(** A number is a double. The integer z stands for the double nearest to
    it: z itself up to 2^53 in magnitude, z rounded to 53 significant bits
    (ties to even) above, and an infinity ([None]) from 2^1024 - 2^970 on. *)
Definition round_double (z : Z) : option Z :=
  if Z.abs z <=? 2 ^ 53 then Some z
  else
    let a := Z.abs z in
    let shift := Z.log2 a - 52 in
    let q := a / 2 ^ shift in
    let r := a mod 2 ^ shift in
    let half := 2 ^ (shift - 1) in
    let q' := if (half <? r) || ((r =? half) && Z.odd q) then q + 1 else q in
    if 2 ^ 1024 <=? q' * 2 ^ shift then None
    else Some (Z.sgn z * (q' * 2 ^ shift)).

(** The doubles that are no integers: m * 2^e with m odd and e negative. *)
Definition real_ok (m e : Z) : bool :=
  Z.odd m && (Z.abs m <? 2 ^ 53) && (e <? 0) && (-1074 <=? e).

(** The positive double m * 2^e as M * 2^E with M of 53 bits, or with
    E = -1074 for a subnormal. *)
Definition canonical (m e : Z) : Z * Z :=
  let E := Z.max (e + Z.log2 m - 52) (-1074) in
  (if 0 <=? e - E then m * 2 ^ (e - E) else m / 2 ^ (E - e), E).

Definition pos_part (z : Z) : Z := Z.max z 0.

(** X * 2^(E-2) and s * 10^q, multiplied by the same power of 2 and the
    same power of 10 that make both integers. *)
Definition scaled_bound (X E q : Z) : Z :=
  X * 2 ^ pos_part (E - 2) * 10 ^ pos_part (- q).
Definition scaled_decimal (s E q : Z) : Z :=
  s * 10 ^ pos_part q * 2 ^ pos_part (2 - E).

(** s * 10^q rounds to the double M * 2^E: it lies between the midpoints
    to the neighbouring doubles, which count when M is even. *)
Definition in_interval (M E s q : Z) : bool :=
  let low := if (M =? 2 ^ 52) && (-1074 <? E) then 4 * M - 1 else 4 * M - 2 in
  let high := 4 * M + 2 in
  let c := scaled_decimal s E q in
  if Z.even M
  then (scaled_bound low E q <=? c) && (c <=? scaled_bound high E q)
  else (scaled_bound low E q <? c) && (c <? scaled_bound high E q).

Definition distance (M E s q : Z) : Z :=
  Z.abs (scaled_decimal s E q - scaled_bound (4 * M) E q).

(** The least n from [n] on with M * 2^E < 10^n. *)
Fixpoint magnitude (fuel : nat) (M E n : Z) : Z :=
  match fuel with
  | O => n
  | S fuel' =>
      if scaled_bound (4 * M) E n <? scaled_decimal 1 E n then n
      else magnitude fuel' M E (n + 1)
  end.

(** The integers s of k digits for which s * 10^(n-k) rounds to the
    double; they are among the two next to M * 2^E / 10^(n-k). *)
Definition candidates (M E k n : Z) : list Z :=
  let q := n - k in
  let s := scaled_bound (4 * M) E q / scaled_decimal 1 E q in
  List.filter
    (fun s => (10 ^ (k - 1) <=? s) && (s <? 10 ^ k) && in_interval M E s q)
    [s; s + 1].

(** The candidate nearest to the double, the even one of two as near. *)
Definition closest (M E q : Z) (l : list Z) : option Z :=
  fold_left (fun best s =>
               match best with
               | None => Some s
               | Some t =>
                   if distance M E s q <? distance M E t q then Some s
                   else if (distance M E s q =? distance M E t q) && Z.even s
                   then Some s else Some t
               end) l None.

(** The digits s, their number k, as small as possible, and the exponent n
    of Number::toString, with s * 10^(n-k) rounding to the double. *)
Fixpoint shortest (fuel : nat) (M E n0 k : Z) : Z * Z * Z :=
  match fuel with
  | O => (1, n0, 1)
  | S fuel' =>
      match closest M E (n0 - k) (candidates M E k n0) with
      | Some s => (s, n0, k)
      | None =>
          match closest M E (n0 + 1 - k) (candidates M E k (n0 + 1)) with
          | Some s => (s, n0 + 1, k)
          | None => shortest fuel' M E n0 (k + 1)
          end
      end
  end.

Definition zeros (n : Z) : jsstring := repeat 48%N (Z.to_nat n).

(** The text for the digits s, their number k and the exponent n. *)
Definition format (s n k : Z) : jsstring :=
  let digits := of_Z s in
  if (k <=? n) && (n <=? 21) then digits ++ zeros (n - k)
  else if (0 <? n) && (n <=? 21) then
    firstn (Z.to_nat n) digits ++ [46%N] ++ skipn (Z.to_nat n) digits
  else if (-6 <? n) && (n <=? 0) then
    [48%N; 46%N] ++ zeros (- n) ++ digits
  else
    (if k =? 1 then digits else firstn 1 digits ++ [46%N] ++ skipn 1 digits)
    ++ [101%N] ++ (if n - 1 <? 0 then [45%N] else [43%N])
    ++ of_Z (Z.abs (n - 1)).

(** Number::toString of the positive double m * 2^e. *)
Definition positive_text (m e : Z) : jsstring :=
  let '(M, E) := canonical m e in
  let n0 := magnitude 8 M E ((Z.log2 M + E) * 30103 / 100000 - 2) in
  let '(s, n, k) := shortest 17 M E n0 1 in
  format s n k.

(** Number::toString of the double m * 2^e, m not 0. *)
Definition double_text (m e : Z) : jsstring :=
  if m <? 0 then 45%N :: positive_text (- m) e else positive_text m e.

(** Number::toString of the double an integer stands for. An integer up to
    2^53 in magnitude prints as its digits. *)
Definition integer_text (z : Z) : jsstring :=
  match round_double z with
  | None => if z <? 0 then lit "-Infinity" else lit "Infinity"
  | Some d => if Z.abs d <=? 2 ^ 53 then of_Z d else double_text d 0
  end.

End JsNumber.
Export JsNumber.

(* ===================================================================== *)
(** ** JSON values and JSON.stringify *)
(* ===================================================================== *)

Module Json.

(** The values [JSON.parse] produces and [JSON.stringify] prints. A number
    is a double: [JNum z] is the double the integer z stands for (z itself
    up to 2^53 in magnitude, as every request id is; an infinity beyond the
    doubles), [JReal m e] the double m * 2^e that is no integer, [JNaN] the
    value NaN, which [JSON.parse] never gives and a caller may pass. The
    two zeros are one number. An object lists its
    properties as they are defined one after the other, a name that comes
    again being passed over; [own_properties] gives the order in which they
    are enumerated. *)
Inductive json : Type :=
| JNull
| JBool (b : bool)
| JNum (z : Z)
| JReal (m e : Z) (ok : real_ok m e = true)
| JNaN
| JStr (s : jsstring)
| JArr (items : list json)
| JObj (props : list (jsstring * json)).

(** A JavaScript value that may be [undefined]. *)
Definition value : Type := option json.

(** Truthiness, as tested by [if (v)]. *)
Definition truthy (v : value) : bool :=
  match v with
  | None => false
  | Some JNull => false
  | Some (JBool b) => b
  | Some (JNum z) => negb (Z.eqb z 0)
  | Some (JReal _ _ _) => true
  | Some JNaN => false
  | Some (JStr s) => truthy_string s
  | Some (JArr _) => true
  | Some (JObj _) => true
  end.

Fixpoint assoc (k : jsstring) (props : list (jsstring * json)) : value :=
  match props with
  | [] => None
  | (k', v) :: props' => if decide (k' = k) then Some v else assoc k props'
  end.

(** [v.k] for one of the property names the bridge reads ([id], [result],
    [error], [message]): defined on an object that has the property,
    [undefined] on any other value. Reading a property of [null] or
    [undefined] throws; [get] is used where the value is known not to be. *)
Definition get (k : jsstring) (v : json) : value :=
  match v with
  | JObj props => assoc k props
  | _ => None
  end.

(** ToString of a value throws. A primitive has a text; an object from
    [JSON.parse] has the text of [Object.prototype.toString] unless it has a
    property [toString] of its own, which is no function, and then no
    [valueOf] gives a primitive either; an array is joined, with the text of
    each element that is not [null]. *)
Fixpoint tostring_throws (v : json) : bool :=
  match v with
  | JObj props =>
      existsb (fun kv => bool_decide (fst kv = lit "toString")) props
  | JArr items => existsb tostring_throws items
  | _ => false
  end.

(** The argument of [new Error(m)] makes the constructor throw. *)
Definition message_throws (m : value) : bool :=
  match m with
  | Some v => tostring_throws v
  | None => false
  end.

(** A hexadecimal digit, in lower case. *)
Definition hex_digit (d : N) : N :=
  if N.ltb d 10 then 48 + d else 87 + d.

(** The escape of a code unit by its four hexadecimal digits. *)
Definition unicode_escape (c : N) : jsstring :=
  [92; 117; hex_digit (N.land (N.shiftr c 12) 15);
   hex_digit (N.land (N.shiftr c 8) 15);
   hex_digit (N.land (N.shiftr c 4) 15); hex_digit (N.land c 15)].

(** One code unit that is not a surrogate, inside a quoted string. *)
Definition escape_unit (c : N) : jsstring :=
  if N.eqb c 8 then [92; 98]
  else if N.eqb c 9 then [92; 116]
  else if N.eqb c 10 then [92; 110]
  else if N.eqb c 12 then [92; 102]
  else if N.eqb c 13 then [92; 114]
  else if N.eqb c 34 then [92; 34]
  else if N.eqb c 92 then [92; 92]
  else if N.ltb c 32 then unicode_escape c
  else [c].

Definition is_high_surrogate (c : N) : bool := N.leb 55296 c && N.leb c 56319.
Definition is_low_surrogate (c : N) : bool := N.leb 56320 c && N.leb c 57343.

(** The body of a quoted string: a surrogate pair is kept, a lone surrogate
    is escaped. *)
Fixpoint quote_body (s : jsstring) : jsstring :=
  match s with
  | [] => []
  | c :: rest =>
      if is_high_surrogate c then
        match rest with
        | d :: rest' =>
            if is_low_surrogate d then c :: d :: quote_body rest'
            else unicode_escape c ++ quote_body rest
        | [] => unicode_escape c
        end
      else if is_low_surrogate c then unicode_escape c ++ quote_body rest
      else escape_unit c ++ quote_body rest
  end.

Definition quote (s : jsstring) : jsstring := 34 :: quote_body s ++ [34].

(** [a.join(sep)]. *)
Fixpoint join (sep : jsstring) (parts : list jsstring) : jsstring :=
  match parts with
  | [] => []
  | [p] => p
  | p :: ps => p ++ sep ++ join sep ps
  end.

(** The value of a text of decimal digits. *)
Fixpoint digits_value (acc : Z) (s : jsstring) : option Z :=
  match s with
  | [] => Some acc
  | c :: s' =>
      if N.leb 48 c && N.leb c 57
      then digits_value (10 * acc + Z.of_N (c - 48)) s'
      else None
  end.

(** A property name that is an array index: the canonical text of an
    integer below 2^32 - 1. *)
Definition array_index (k : jsstring) : option Z :=
  match digits_value 0 k with
  | Some n =>
      if (n <? 2 ^ 32 - 1)%Z && bool_decide (of_Z n = k) then Some n else None
  | None => None
  end.

(** The properties with a name each: the first definition of a name. *)
Fixpoint first_defined {A : Type} (seen : list jsstring)
    (props : list (jsstring * A)) : list (jsstring * A) :=
  match props with
  | [] => []
  | kv :: rest =>
      if existsb (fun k => bool_decide (k = fst kv)) seen
      then first_defined seen rest
      else kv :: first_defined (fst kv :: seen) rest
  end.

Fixpoint insert_index {A : Type} (n : Z) (kv : jsstring * A)
    (l : list (Z * (jsstring * A))) : list (Z * (jsstring * A)) :=
  match l with
  | [] => [(n, kv)]
  | (m, kv') :: l' =>
      if (n <? m)%Z then (n, kv) :: l else (m, kv') :: insert_index n kv l'
  end.

(** The properties named by an array index, by ascending index. *)
Fixpoint indexed {A : Type} (props : list (jsstring * A))
  : list (Z * (jsstring * A)) :=
  match props with
  | [] => []
  | kv :: rest =>
      match array_index (fst kv) with
      | Some n => insert_index n kv (indexed rest)
      | None => indexed rest
      end
  end.

(** The other properties, in the order of their definition. *)
Definition named {A : Type} (props : list (jsstring * A))
  : list (jsstring * A) :=
  List.filter (fun kv => match array_index (fst kv) with
                         | Some _ => false
                         | None => true
                         end) props.

(** The own properties of an object in enumeration order
    (OrdinaryOwnPropertyKeys): the array indices in ascending order, then
    the other names in the order of their definition. *)
Definition own_properties {A : Type} (props : list (jsstring * A))
  : list (jsstring * A) :=
  map snd (indexed (first_defined [] props)) ++ named (first_defined [] props).

(** [JSON.stringify(v)], without indentation: a finite number has the text
    of Number::toString, an infinity and NaN are printed as [null]; the
    properties of an object come in enumeration order. *)
Fixpoint stringify (v : json) : jsstring :=
  match v with
  | JNull => lit "null"
  | JBool true => lit "true"
  | JBool false => lit "false"
  | JNum z => match round_double z with
              | Some _ => integer_text z
              | None => lit "null"
              end
  | JReal m e _ => double_text m e
  | JNaN => lit "null"
  | JStr s => quote s
  | JArr items => 91 :: join [44] (map stringify items) ++ [93]
  | JObj props =>
      123 :: join [44]
               (map (fun kt => quote (fst kt) ++ 58 :: snd kt)
                  (own_properties
                     (map (fun kv => (fst kv, stringify (snd kv))) props)))
          ++ [125]
  end.

End Json.
Export Json.

(* ===================================================================== *)
(** ** The Bridge class *)
(* ===================================================================== *)

Module Bridge.

Local Open Scope Z_scope.

(** The promise a call of [send] creates, named by the runtime. The pair
    [{resolve, reject}] kept in the pending map settles that promise. *)
Definition promise : Type := nat.

(** [new Error(m)], an Error whose message is the text of [m] ([m] itself
    when it is a string, none when [m] is [undefined]), and a TypeError. *)
Inductive jserror : Type :=
| ErrorOf (message : value)
| TypeError.

(** The handle [spawn] returns for the process it started from [path]. *)
Inductive ChildProcess : Type :=
| Spawned (path : jsstring).

(** What a method does to the world outside the instance. *)
Inductive event : Type :=
| ConsoleLog (args : list jsstring)
| ConsoleWarn (args : list jsstring)
| ConsoleError (args : list jsstring)
| Spawn (path : jsstring)
| Kill (c : ChildProcess)
| StdinWrite (c : ChildProcess) (data : jsstring)
| Emit (name : jsstring) (code : option Z)
| Resolve (p : promise) (v : value)
| Reject (p : promise) (e : jserror)
| Failed (e : jserror)
| ConsoleErrorValue (label : jsstring) (e : jserror)
| EmitError (e : jserror).

(** How a method call ends. *)
Inductive completion (A : Type) : Type :=
| Normal (a : A)
| Throw (e : jserror).
Arguments Normal {A} a.
Arguments Throw {A} e.

(** What the class reads from its host: the file system, the two resolved
    candidate paths (they depend on [__dirname]), and [JSON.parse], which
    returns the parsed value or throws ([None]). *)
Record Host := {
  existsSync : jsstring -> bool;
  devPath : jsstring;
  prodPath : jsstring;
  JSON_parse : jsstring -> option json
}.

(** The fields of an instance. *)
Record Bridge := {
  binaryPath : option jsstring;
  child : option ChildProcess;
  requestId : Z;
  pendingRequests : gmap Z promise;
  buffer : jsstring
}.

(** [new Bridge(binaryPath)]. *)
Definition new_bridge (bp : option jsstring) : Bridge :=
  {| binaryPath := bp; child := None; requestId := 0;
     pendingRequests := ∅; buffer := [] |}.

Definition set_child (c : option ChildProcess) (b : Bridge) : Bridge :=
  {| binaryPath := binaryPath b; child := c; requestId := requestId b;
     pendingRequests := pendingRequests b; buffer := buffer b |}.

Definition set_requestId (n : Z) (b : Bridge) : Bridge :=
  {| binaryPath := binaryPath b; child := child b; requestId := n;
     pendingRequests := pendingRequests b; buffer := buffer b |}.

Definition set_pendingRequests (m : gmap Z promise) (b : Bridge) : Bridge :=
  {| binaryPath := binaryPath b; child := child b; requestId := requestId b;
     pendingRequests := m; buffer := buffer b |}.

Definition set_buffer (s : jsstring) (b : Bridge) : Bridge :=
  {| binaryPath := binaryPath b; child := child b; requestId := requestId b;
     pendingRequests := pendingRequests b; buffer := s |}.

(** [x++] on a counter that started at 0. A number is a double: the
    increment is exact below 2^53, and 2^53 + 1 rounds back to 2^53. *)
Definition js_incr (x : Z) : Z :=
  if x <? 2 ^ 53 then x + 1 else x.

Definition truthy_path (o : option jsstring) : bool :=
  match o with Some s => truthy_string s | None => false end.

Definition launch_error (h : Host) : jserror :=
  ErrorOf (Some (JStr
    (lit "Could not locate omniagentpay-server binary. Tries:"
     ++ [10%N] ++ devPath h ++ [10%N] ++ prodPath h))).

Definition getBinaryPath (h : Host) (b : Bridge) : completion jsstring :=
  if truthy_path (binaryPath b) then Normal (or_empty (binaryPath b))
  else if existsSync h (devPath h) then Normal (devPath h)
  else if existsSync h (prodPath h) then Normal (prodPath h)
  else Throw (launch_error h).

Definition start (h : Host) (b : Bridge) : completion (Bridge * list event) :=
  match getBinaryPath h b with
  | Throw e => Throw e
  | Normal binPath =>
      Normal (set_child (Some (Spawned binPath)) b,
              [ConsoleLog [lit "[OmniAgentPay] Spawning sidecar: " ++ binPath];
               Spawn binPath])
  end.

(** The text of an exit code in a template literal. *)
Definition code_text (code : option Z) : jsstring :=
  match code with Some z => of_Z z | None => lit "null" end.

(** The listener of the child's [exit] event. *)
Definition on_exit (code : option Z) (b : Bridge) : Bridge * list event :=
  (set_child None b,
   [ConsoleWarn [lit "[OmniAgentPay] Sidecar exited with code " ++ code_text code];
    Emit (lit "exit") code]).

(** The key of the pending map a value is equal to, if any: the keys are
    the integers [send] has allocated, so only a number that is a finite
    integer can be one. *)
Definition key_of (id : value) : option Z :=
  match id with
  | Some (JNum z) => round_double z
  | _ => None
  end.

(** [pendingRequests.get(id)]. *)
Definition pending_get (id : value) (m : gmap Z promise) : option promise :=
  match key_of id with
  | Some k => m !! k
  | None => None
  end.

(** [pendingRequests.delete(id)]. *)
Definition pending_delete (id : value) (m : gmap Z promise) : gmap Z promise :=
  match key_of id with
  | Some k => delete k m
  | None => m
  end.

(** The listener of the child's [error] event, for the error [e] the
    worker could not be started or signalled with. [listened] tells whether
    the application has attached a listener for [error] to the bridge;
    without one, [emit] throws the error. *)
Definition on_error (e : jserror) (listened : bool) (b : Bridge)
  : Bridge * list event :=
  (b, [ConsoleErrorValue (lit "[OmniAgentPay] Sidecar error:") e; EmitError e]
      ++ (if listened then [] else [Failed e])).

Definition resolveRequest (response : json) (b : Bridge)
  : completion (Bridge * list event) :=
  match response with
  | JNull => Throw TypeError
  | _ =>
      let id := get (lit "id") response in
      let result := get (lit "result") response in
      let error := get (lit "error") response in
      match pending_get id (pendingRequests b) with
      | Some request =>
          if truthy error then
            if message_throws (error ≫= get (lit "message")) then Throw TypeError
            else
              Normal (set_pendingRequests (pending_delete id (pendingRequests b)) b,
                      [Reject request (ErrorOf (error ≫= get (lit "message")))])
          else
            Normal (set_pendingRequests (pending_delete id (pendingRequests b)) b,
                    [Resolve request result])
      | None => Normal (b, [])
      end
  end.

(** The three ways the loop of [handleData] treats a line. *)
Inductive line_kind : Type := Blank | Diagnostic | Protocol.

Definition classify (line : jsstring) : line_kind :=
  let trimmed := trim line in
  if negb (truthy_string trimmed) then Blank
  else if negb (startsWith trimmed (lit "{")) then Diagnostic
  else Protocol.

Definition invalid_json (trimmed : jsstring) : event :=
  ConsoleError [lit "[OmniAgentPay] Invalid JSON from sidecar:"; trimmed].

(** The [try] block of the loop, with its [catch]. *)
Definition dispatch (h : Host) (trimmed : jsstring) (b : Bridge)
  : Bridge * list event :=
  match JSON_parse h trimmed with
  | Some response =>
      match resolveRequest response b with
      | Normal r => r
      | Throw _ => (b, [invalid_json trimmed])
      end
  | None => (b, [invalid_json trimmed])
  end.

(** One iteration of the loop of [handleData]. *)
Definition handleLine (h : Host) (line : jsstring) (b : Bridge)
  : Bridge * list event :=
  match classify line with
  | Blank => (b, [])
  | Diagnostic =>
      (b, [ConsoleError [lit "[OmniAgentPay Sidecar Log] " ++ trim line]])
  | Protocol => dispatch h (trim line) b
  end.

Fixpoint handleLines (h : Host) (lines : list jsstring) (b : Bridge)
  : Bridge * list event :=
  match lines with
  | [] => (b, [])
  | line :: lines' =>
      let '(b1, evs1) := handleLine h line b in
      let '(b2, evs2) := handleLines h lines' b1 in
      (b2, evs1 ++ evs2)
  end.

(** The first statements of [handleData]: the buffer is extended by the
    chunk and split; the last segment becomes the new buffer and the segments
    before it are the lines to process. *)
Definition take_lines (buf chunk : jsstring) : list jsstring * jsstring :=
  let '(last_segment, lines) := pop (split 10%N (buf ++ chunk)) in
  (lines, or_empty last_segment).

Definition handleData (h : Host) (chunk : jsstring) (b : Bridge)
  : Bridge * list event :=
  let '(lines, rest) := take_lines (buffer b) chunk in
  handleLines h lines (set_buffer rest b).

(** [handleData] on the chunks of a list, one call per chunk. *)
Fixpoint handleChunks (h : Host) (chunks : list jsstring) (b : Bridge)
  : Bridge * list event :=
  match chunks with
  | [] => (b, [])
  | chunk :: chunks' =>
      let '(b1, evs1) := handleData h chunk b in
      let '(b2, evs2) := handleChunks h chunks' b1 in
      (b2, evs1 ++ evs2)
  end.

(** The lines taken from the chunks of a list, and the buffer left. *)
Fixpoint take_all (buf : jsstring) (chunks : list jsstring)
  : list jsstring * jsstring :=
  match chunks with
  | [] => ([], buf)
  | chunk :: chunks' =>
      let '(lines1, buf1) := take_lines buf chunk in
      let '(lines2, buf2) := take_all buf1 chunks' in
      (lines1 ++ lines2, buf2)
  end.

(** The listener of the [data] event of the child's stdout. *)
Definition on_stdout_data (h : Host) (data : list byte) (b : Bridge)
  : Bridge * list event :=
  handleData h (Utf8.toString data) b.

(** The request object of [send]. *)
Definition request_object (method : jsstring) (params : json) (id : Z) : json :=
  JObj [(lit "jsonrpc", JStr (lit "2.0")); (lit "method", JStr method);
        (lit "params", params); (lit "id", JNum id)].

(** The second argument of [send]: a JSON value, or nothing ([None]), or a
    value on which [JSON.stringify] throws (a BigInt, an object that
    contains itself). *)
Inductive argument : Type :=
| Params (params : value)
| Unserialisable.

(** [send(method, params)]; [p] is the promise the call creates. A failure
    of [start] rejects the call before the promise is created; an exception
    inside the promise, after the entry is stored, rejects the promise. *)
Definition send_any (h : Host) (p : promise) (method : jsstring)
    (arg : argument) (b : Bridge) : completion (Bridge * list event) :=
  match (match child b with Some _ => Normal (b, []) | None => start h b end) with
  | Throw e => Throw e
  | Normal (b1, evs) =>
      let id := js_incr (requestId b1) in
      let b2 := set_pendingRequests (<[id := p]> (pendingRequests b1))
                  (set_requestId id b1) in
      Normal (b2,
              evs ++ match child b2, arg with
                     | Some c, Params params =>
                         [StdinWrite c
                            (stringify (request_object method
                                          (default (JObj []) params) id)
                             ++ [10%N])]
                     | _, _ => [Reject p TypeError]
                     end)
  end.

(** [send] with a JSON value for [params], or none. *)
Definition send (h : Host) (p : promise) (method : jsstring) (params : value)
    (b : Bridge) : completion (Bridge * list event) :=
  send_any h p method (Params params) b.

Definition stop (b : Bridge) : Bridge * list event :=
  (set_child None b,
   match child b with Some c => [Kill c] | None => [] end).

(** *** Histories of an instance *)

(** The things that happen to an instance: the calls of its public methods
    (with JSON values for the parameters of [send]) and the events of its
    worker. A worker that cannot be executed shows as its [error] event. *)
Inductive action : Type :=
| CallStart
| CallSend (p : promise) (method : jsstring) (params : value)
| CallStop
| StdoutData (data : list byte)
| ChildExit (code : option Z)
| ChildError (e : jserror) (listened : bool).

Definition settle (b : Bridge) (r : completion (Bridge * list event))
  : Bridge * list event :=
  match r with
  | Normal r => r
  | Throw e => (b, [Failed e])
  end.

Definition step (h : Host) (a : action) (b : Bridge) : Bridge * list event :=
  match a with
  | CallStart => settle b (start h b)
  | CallSend p method params => settle b (send h p method params b)
  | CallStop => stop b
  | StdoutData data => on_stdout_data h data b
  | ChildExit code => on_exit code b
  | ChildError e listened => on_error e listened b
  end.

(** A history pairs each action with the host as it is at that moment. *)
Fixpoint run (tr : list (Host * action)) (b : Bridge) : Bridge * list event :=
  match tr with
  | [] => (b, [])
  | (h, a) :: tr' =>
      let '(b1, evs1) := step h a b in
      let '(b2, evs2) := run tr' b1 in
      (b2, evs1 ++ evs2)
  end.

(** The id a call of [send] allocates: the counter after the increment. *)
Definition allocated (h : Host) (a : action) (b : Bridge) : list Z :=
  match a with
  | CallSend p method params =>
      match send h p method params b with
      | Normal (b', _) => [requestId b']
      | Throw _ => []
      end
  | _ => []
  end.

(** The ids allocated along a history, in order. *)
Fixpoint sent_ids (tr : list (Host * action)) (b : Bridge) : list Z :=
  match tr with
  | [] => []
  | (h, a) :: tr' => allocated h a b ++ sent_ids tr' (fst (step h a b))
  end.

(** The data written to the worker's stdin, one entry per write. *)
Fixpoint writes (evs : list event) : list jsstring :=
  match evs with
  | [] => []
  | StdinWrite _ data :: evs' => data :: writes evs'
  | _ :: evs' => writes evs'
  end.

(** The paths of the processes spawned. *)
Fixpoint spawns (evs : list event) : list jsstring :=
  match evs with
  | [] => []
  | Spawn path :: evs' => path :: spawns evs'
  | _ :: evs' => spawns evs'
  end.

(** The invariant of the registry: the counter is a non-negative integer
    and every pending id has been allocated. *)
Definition registry_ok (b : Bridge) : Prop :=
  0 <= requestId b /\
  forall k, is_Some (pendingRequests b !! k) -> 1 <= k <= requestId b.

(** The invariant of the decoder: the buffer holds no line terminator. *)
Definition buffer_ok (b : Bridge) : Prop := no_nl (buffer b).

(** [b'] differs from [b] at most by pending entries that were removed. *)
Definition only_removes (b b' : Bridge) : Prop :=
  binaryPath b' = binaryPath b /\ child b' = child b /\
  requestId b' = requestId b /\ buffer b' = buffer b /\
  pendingRequests b' ⊆ pendingRequests b.

(** Settling a promise: resolving or rejecting it. *)
Definition settles (p : promise) (e : event) : bool :=
  match e with
  | Resolve q _ => Nat.eqb p q
  | Reject q _ => Nat.eqb p q
  | _ => false
  end.

Definition is_settlement (e : event) : bool :=
  match e with
  | Resolve _ _ | Reject _ _ => true
  | _ => false
  end.

End Bridge.
Export Bridge.

(* ===================================================================== *)
(** ** Concrete hosts, replies and instances *)
(* ===================================================================== *)

Module Examples.

Local Open Scope Z_scope.

Definition dev_path : jsstring := lit "/repo/dist/omniagentpay-server".
Definition prod_path : jsstring := lit "/pkg/node_modules/omniagentpay/bin/omniagentpay-server".

(** Reply lines of a worker, and the values [JSON.parse] gives for them. *)
Definition reply_result : jsstring :=
  litq "{'jsonrpc':'2.0','id':1,'result':true}".
Definition reply_result_value : json :=
  JObj [(lit "jsonrpc", JStr (lit "2.0")); (lit "id", JNum 1);
        (lit "result", JBool true)].

Definition reply_error : jsstring :=
  litq "{'jsonrpc':'2.0','id':1,'error':{'code':-32000,'message':'boom','data':[1]}}".
Definition reply_error_value : json :=
  JObj [(lit "jsonrpc", JStr (lit "2.0")); (lit "id", JNum 1);
        (lit "error", JObj [(lit "code", JNum (-32000));
                            (lit "message", JStr (lit "boom"));
                            (lit "data", JArr [JNum 1])])].

(** An error whose message is an object with a member named [toString]:
    [new Error(error.message)] finds no text for it. *)
Definition reply_error_unprintable : jsstring :=
  litq "{'jsonrpc':'2.0','id':1,'error':{'message':{'toString':1}}}".
Definition reply_error_unprintable_value : json :=
  JObj [(lit "jsonrpc", JStr (lit "2.0")); (lit "id", JNum 1);
        (lit "error", JObj [(lit "message", JObj [(lit "toString", JNum 1)])])].

(** The same error message under another code and without data. *)
Definition reply_error_other_value : json :=
  JObj [(lit "jsonrpc", JStr (lit "2.0")); (lit "id", JNum 1);
        (lit "error", JObj [(lit "code", JNum 404);
                            (lit "message", JStr (lit "boom"))])].

Definition reply_bare : jsstring := litq "{'jsonrpc':'2.0','id':1}".
Definition reply_bare_value : json :=
  JObj [(lit "jsonrpc", JStr (lit "2.0")); (lit "id", JNum 1)].

Definition reply_unknown : jsstring :=
  litq "{'jsonrpc':'2.0','id':5,'result':true}".
Definition reply_unknown_value : json :=
  JObj [(lit "jsonrpc", JStr (lit "2.0")); (lit "id", JNum 5);
        (lit "result", JBool true)].

Definition reply_truncated : jsstring := litq "{'jsonrpc':'2.0','id':1,".

(** [JSON.parse] on the lines above; any other text is taken as a syntax
    error. *)
Definition parse_replies (t : jsstring) : option json :=
  if decide (t = reply_result) then Some reply_result_value
  else if decide (t = reply_error) then Some reply_error_value
  else if decide (t = reply_bare) then Some reply_bare_value
  else if decide (t = reply_unknown) then Some reply_unknown_value
  else if decide (t = reply_error_unprintable)
       then Some reply_error_unprintable_value
  else None.

(** A host with the worker installed at the package path. *)
Definition host_installed : Host :=
  {| existsSync := fun path => bool_decide (path = prod_path);
     devPath := dev_path; prodPath := prod_path;
     JSON_parse := parse_replies |}.

(** A host without the worker. *)
Definition host_bare : Host :=
  {| existsSync := fun _ => false;
     devPath := dev_path; prodPath := prod_path;
     JSON_parse := parse_replies |}.

(** An instance after one [send('health')]: request 1 is pending for
    promise 7. *)
Definition one_pending : Bridge :=
  fst (run [(host_installed, CallSend 7%nat (lit "health") None)]
           (new_bridge None)).

End Examples.

(* ===================================================================== *)
(** ** What a history shows from outside *)
(* ===================================================================== *)

Module Observations.

Local Open Scope Z_scope.

(** The promises settled by the events of a list, in order. *)
Fixpoint settled (evs : list event) : list promise :=
  match evs with
  | [] => []
  | Resolve p _ :: evs' => p :: settled evs'
  | Reject p _ :: evs' => p :: settled evs'
  | _ :: evs' => settled evs'
  end.

(** The worker handles killed by the events of a list. *)
Fixpoint kills (evs : list event) : list ChildProcess :=
  match evs with
  | [] => []
  | Kill c :: evs' => c :: kills evs'
  | _ :: evs' => kills evs'
  end.

(** The worker handles written to by the events of a list. *)
Fixpoint write_targets (evs : list event) : list ChildProcess :=
  match evs with
  | [] => []
  | StdinWrite c _ :: evs' => c :: write_targets evs'
  | _ :: evs' => write_targets evs'
  end.





(** The events [handleData] can have: console errors and settlements. *)
Definition is_report_or_settlement (e : event) : bool :=
  match e with
  | ConsoleError _ | Resolve _ _ | Reject _ _ => true
  | _ => false
  end.

(** The actions that neither start nor end a worker by themselves: calls
    of [send] and output of the worker. *)
Definition is_send_or_data (a : action) : bool :=
  match a with
  | CallSend _ _ _ | StdoutData _ => true
  | _ => false
  end.

Definition is_stdout_data (a : action) : bool :=
  match a with StdoutData _ => true | _ => false end.


End Observations.
Export Observations.

(* ===================================================================== *)
(** ** The OmniAgentPay client (src/client.ts) *)
(* ===================================================================== *)

Module Client.

(** [OmniAgentPayConfig]; a field left out is [None]. *)
Record OmniAgentPayConfig := {
  cfg_binaryPath : option jsstring;
  apiKey : option jsstring;
  entitySecret : option jsstring
}.

(** [process.env]. *)
Definition environment : Type := gmap jsstring jsstring.

(** The fields of an instance. *)
Record OmniAgentPay := { bridge : Bridge }.

(** [if (v) env[name] = v]. *)
Definition set_if_truthy (name : jsstring) (v : option jsstring)
    (env : environment) : environment :=
  match v with
  | Some s => if truthy_string s then <[name := s]> env else env
  | None => env
  end.

(** [new OmniAgentPay(config)]; [config] is [None] when left out. *)
Definition constructor (config : option OmniAgentPayConfig) (env : environment)
  : OmniAgentPay * environment :=
  let config := default {| cfg_binaryPath := None; apiKey := None;
                           entitySecret := None |} config in
  ({| bridge := new_bridge (cfg_binaryPath config) |},
   set_if_truthy (lit "ENTITY_SECRET") (entitySecret config)
     (set_if_truthy (lit "CIRCLE_API_KEY") (apiKey config) env)).

(** The methods of the class that address the worker. *)
Inductive api_method : Type :=
| pay | simulate | canPay | detectMethod | batchPay
| getBalance | createWallet | createWalletSet | listWallets | listWalletSets
| getWallet | listTransactions
| createPaymentIntent | confirmPaymentIntent | getPaymentIntent
| cancelPaymentIntent
| addBudgetGuard | addBudgetGuardForSet | addSingleTxGuard | addRecipientGuard
| addRateLimitGuard | addConfirmGuard | listGuards | listGuardsForSet
| addConfirmGuardForSet | addRateLimitGuardForSet | addRecipientGuardForSet
| addSingleTxGuardForSet
| syncTransaction | health.

Definition all_methods : list api_method :=
  [pay; simulate; canPay; detectMethod; batchPay; getBalance; createWallet;
   createWalletSet; listWallets; listWalletSets; getWallet; listTransactions;
   createPaymentIntent; confirmPaymentIntent; getPaymentIntent;
   cancelPaymentIntent; addBudgetGuard; addBudgetGuardForSet; addSingleTxGuard;
   addRecipientGuard; addRateLimitGuard; addConfirmGuard; listGuards;
   listGuardsForSet; addConfirmGuardForSet; addRateLimitGuardForSet;
   addRecipientGuardForSet; addSingleTxGuardForSet; syncTransaction; health].

#[global] Instance api_method_eq_dec : EqDecision api_method.
Proof. solve_decision. Defined.

(** The first argument each method gives to [bridge.send]. *)
Definition method_name (m : api_method) : jsstring :=
  match m with
  | pay => lit "pay"
  | simulate => lit "simulate"
  | canPay => lit "can_pay"
  | detectMethod => lit "detect_method"
  | batchPay => lit "batch_pay"
  | getBalance => lit "get_balance"
  | createWallet => lit "create_wallet"
  | createWalletSet => lit "create_wallet_set"
  | listWallets => lit "list_wallets"
  | listWalletSets => lit "list_wallet_sets"
  | getWallet => lit "get_wallet"
  | listTransactions => lit "list_transactions"
  | createPaymentIntent => lit "create_payment_intent"
  | confirmPaymentIntent => lit "confirm_payment_intent"
  | getPaymentIntent => lit "get_payment_intent"
  | cancelPaymentIntent => lit "cancel_payment_intent"
  | addBudgetGuard => lit "add_budget_guard"
  | addBudgetGuardForSet => lit "add_budget_guard_for_set"
  | addSingleTxGuard => lit "add_single_tx_guard"
  | addRecipientGuard => lit "add_recipient_guard"
  | addRateLimitGuard => lit "add_rate_limit_guard"
  | addConfirmGuard => lit "add_confirm_guard"
  | listGuards => lit "list_guards"
  | listGuardsForSet => lit "list_guards_for_set"
  | addConfirmGuardForSet => lit "add_confirm_guard_for_set"
  | addRateLimitGuardForSet => lit "add_rate_limit_guard_for_set"
  | addRecipientGuardForSet => lit "add_recipient_guard_for_set"
  | addSingleTxGuardForSet => lit "add_single_tx_guard_for_set"
  | syncTransaction => lit "sync_transaction"
  | health => lit "health"
  end.



(** [client.stop()]. *)
Definition client_stop (c : OmniAgentPay) : OmniAgentPay * list event :=
  let '(b', evs) := stop (bridge c) in ({| bridge := b' |}, evs).

End Client.

(* ===================================================================== *)
(** ** The install script (scripts/install.js) *)
(* ===================================================================== *)

Module Install.

Local Open Scope Z_scope.

(** What the script reads from its host: [process.platform],
    [process.arch], the version of package.json, the three paths it
    computes with [path.join] and [path.resolve] (the bin directory, and the
    binary and the local build for a binary name), and the file system as it
    is when the script starts. *)
Record InstallHost := {
  platform : jsstring;
  arch : jsstring;
  PACKAGE_VERSION : jsstring;
  BIN_DIR : jsstring;
  bin_path_of : jsstring -> jsstring;
  local_build_of : jsstring -> jsstring;
  exists_at_start : jsstring -> bool
}.

(** What the script does to the world. *)
Inductive io : Type :=
| Mkdir (dir : jsstring)
| Log (msg : jsstring)
| LogError (msg : jsstring)
| CopyFile (src dst : jsstring)
| Chmod (path : jsstring) (mode : Z)
| CreateWriteStream (path : jsstring)
| HttpsGet (url : jsstring)
| PipeToFile
| CloseFile
| Unlink (path : jsstring)
| Exit (code : Z).

Definition str_eqb (s t : jsstring) : bool := bool_decide (s = t).

Definition REPO : jsstring := lit "omniagentpay/omniagentpay".

Definition BIN_NAME (h : InstallHost) : jsstring :=
  if str_eqb (platform h) (lit "win32") then lit "omniagentpay-server.exe"
  else lit "omniagentpay-server".

Definition BIN_PATH (h : InstallHost) : jsstring := bin_path_of h (BIN_NAME h).

(** The asset name chosen by [getAssetUrl], or its exception. *)
Definition assetName (h : InstallHost) : completion jsstring :=
  if str_eqb (platform h) (lit "linux") && str_eqb (arch h) (lit "x64")
  then Normal (lit "omniagentpay-server-linux-x64")
  else if str_eqb (platform h) (lit "darwin") && str_eqb (arch h) (lit "arm64")
  then Normal (lit "omniagentpay-server-darwin-x64")
  else if str_eqb (platform h) (lit "darwin") && str_eqb (arch h) (lit "x64")
  then Normal (lit "omniagentpay-server-darwin-x64")
  else if str_eqb (platform h) (lit "win32") && str_eqb (arch h) (lit "x64")
  then Normal (lit "omniagentpay-server-win-x64.exe")
  else Throw (ErrorOf (Some (JStr
         (lit "Unsupported platform: " ++ platform h ++ lit "-" ++ arch h)))).

Definition getAssetUrl (h : InstallHost) : completion jsstring :=
  match assetName h with
  | Throw e => Throw e
  | Normal name =>
      Normal (lit "https://github.com/" ++ REPO ++ lit "/releases/download/v"
              ++ PACKAGE_VERSION h ++ lit "/" ++ name)
  end.

(** [downloadBinary()] up to its return: what it does, and the exception it
    ends with, if any. The responses come later, to the handlers below. *)
Definition downloadBinary (h : InstallHost) : list io * option jserror :=
  let mkdir := if negb (exists_at_start h (BIN_DIR h))
               then [Mkdir (BIN_DIR h)] else [] in
  let localBuild := local_build_of h (BIN_NAME h) in
  if exists_at_start h localBuild then
    (mkdir ++ [Log (lit "[omniagentpay] Found local build, copying...");
               CopyFile localBuild (BIN_PATH h);
               Chmod (BIN_PATH h) 493;
               Log (lit "[omniagentpay] Local binary ready.")], None)
  else
    match getAssetUrl h with
    | Throw e => (mkdir, Some e)
    | Normal url =>
        (mkdir ++ [Log (lit "[omniagentpay] Downloading binary from " ++ url
                        ++ lit "...");
                   CreateWriteStream (BIN_PATH h);
                   HttpsGet url], None)
    end.

Definition download_failed (status : Z) : io :=
  LogError (lit "[omniagentpay] Failed to download binary: " ++ of_Z status).

(** The callback of the first request, for a response with this status
    code and this [location] header. [process.exit] ends the script. *)
Definition on_response (status : Z) (location : jsstring) : list io :=
  if (status =? 302) || (status =? 301) then [HttpsGet location]
  else if negb (status =? 200) then
    [download_failed status;
     LogError (lit "If this is a new release, the binary might not be uploaded yet.");
     Exit 1]
  else [PipeToFile].

(** The callback of the request that follows a redirect. *)
Definition on_redirect_response (status : Z) : list io :=
  if negb (status =? 200) then [download_failed status; Exit 1]
  else [PipeToFile].

(** The listener of the [finish] event of the file. *)
Definition on_finish (h : InstallHost) : list io :=
  [CloseFile; Chmod (BIN_PATH h) 493;
   Log (lit "[omniagentpay] Binary installed successfully.")].

(** The listener of the [error] event of the first request. *)
Definition on_request_error (h : InstallHost) (message : jsstring) : list io :=
  [Unlink (BIN_PATH h);
   LogError (lit "[omniagentpay] Download error: " ++ message);
   Exit 1].

Definition is_pipe (e : io) : bool :=
  match e with PipeToFile => true | _ => false end.

Definition is_exit (e : io) : bool :=
  match e with Exit _ => true | _ => false end.

Definition is_chmod (e : io) : bool :=
  match e with Chmod _ _ => true | _ => false end.

Definition is_get (e : io) : bool :=
  match e with HttpsGet _ => true | _ => false end.

(** The callbacks of one download, in the order the runtime makes them:
    the callback of the first request, for a response with this status and
    this [location] header; when that response is a redirect, the callback
    of the second request, for a response with [redirect_status]; and, once
    a response has been piped to the file, the listener of [finish]. *)
Definition download (h : InstallHost) (status : Z) (location : jsstring)
    (redirect_status : Z) : list io :=
  let first := on_response status location in
  let second := if (status =? 302) || (status =? 301)
                then on_redirect_response redirect_status else [] in
  let answers := first ++ second in
  if existsb is_pipe answers then answers ++ on_finish h else answers.

End Install.

(* ===================================================================== *)
(** ** More concrete histories and hosts *)
(* ===================================================================== *)

Module MoreExamples.

Import Examples.

(** The bytes of an ASCII line, with its line terminator. *)
Definition line_bytes (s : jsstring) : list byte :=
  map (fun c => default x00 (Byte.of_N c)) (s ++ [10%N]).


(** Three calls with output of the worker in between. *)
Definition three_calls : list (Host * action) :=
  [(host_installed, CallSend 7%nat (lit "health") None);
   (host_installed, StdoutData (line_bytes reply_result));
   (host_installed, CallSend 8%nat (lit "pay") None);
   (host_installed, CallSend 9%nat (lit "pay") None)].

(** A host of the install script: its platform, its architecture and the
    files present when the script starts. *)
Definition install_host (p a : jsstring) (present : list jsstring)
  : Install.InstallHost :=
  {| Install.platform := p; Install.arch := a;
     Install.PACKAGE_VERSION := lit "0.0.1";
     Install.BIN_DIR := lit "/pkg/bin";
     Install.bin_path_of := fun n => lit "/pkg/bin/" ++ n;
     Install.local_build_of := fun n => lit "/repo/dist/" ++ n;
     Install.exists_at_start := fun f => bool_decide (f ∈ present) |}.

End MoreExamples.

(* ===================================================================== *)
(** ** Splitting text into lines *)
(* ===================================================================== *)

Section SplitLemmas.

Local Open Scope N_scope.

Variable sep : N.

Lemma split_not_nil (s : jsstring) : split sep s <> [].
Proof.
  destruct s as [|c s]; simpl; [discriminate|].
  destruct (N.eqb c sep); [discriminate|].
  destruct (split sep s); discriminate.
Qed.

Lemma or_empty_last (l : list jsstring) : or_empty (last l) = default [] (last l).
Proof. destruct (last l) as [[|c s]|]; reflexivity. Qed.

(** The segments of [a ++ b]: those of [a] but the last, then those of the
    last segment of [a] followed by [b]. *)
Lemma split_app (a b : jsstring) :
  split sep (a ++ b)
  = removelast (split sep a) ++ split sep (default [] (last (split sep a)) ++ b).
Proof.
  induction a as [|c a IH]; [reflexivity|].
  simpl. destruct (N.eqb c sep) eqn:Hc.
  - rewrite IH. pose proof (split_not_nil a) as Hne.
    destruct (split sep a) as [|seg segs] eqn:Hs; [congruence|].
    destruct segs; reflexivity.
  - rewrite IH. pose proof (split_not_nil a) as Hne.
    destruct (split sep a) as [|seg segs] eqn:Hs; [congruence|].
    destruct segs as [|seg2 segs].
    + simpl. rewrite Hc. reflexivity.
    + reflexivity.
Qed.

(** Joining the segments with the separator gives the text back. *)
Lemma join_split (s : jsstring) : join [sep] (split sep s) = s.
Proof.
  induction s as [|c s IH]; [reflexivity|].
  simpl. destruct (N.eqb c sep) eqn:Hc.
  - apply N.eqb_eq in Hc. subst c.
    pose proof (split_not_nil s) as Hne.
    destruct (split sep s) as [|seg segs]; [congruence|].
    simpl in *. rewrite IH. reflexivity.
  - pose proof (split_not_nil s) as Hne.
    destruct (split sep s) as [|seg segs]; [congruence|].
    destruct segs; simpl in *; rewrite <- IH; reflexivity.
Qed.

(** A text without separator, then one separator: one line and an empty
    rest. *)
Lemma split_one_line (s : jsstring) :
  Forall (fun c => c <> sep) s -> split sep (s ++ [sep]) = [s; []].
Proof.
  induction 1 as [|c s Hc Hs IH]; simpl.
  - rewrite N.eqb_refl. reflexivity.
  - apply N.eqb_neq in Hc. rewrite Hc, IH. reflexivity.
Qed.

Lemma split_no_sep (s : jsstring) :
  Forall (fun c => c <> sep) s -> split sep s = [s].
Proof.
  induction 1 as [|c s Hc Hs IH]; simpl; [reflexivity|].
  apply N.eqb_neq in Hc. rewrite Hc, IH. reflexivity.
Qed.

End SplitLemmas.

Section TakeLines.

Lemma take_lines_eq (buf chunk : jsstring) :
  take_lines buf chunk
  = (removelast (split 10%N (buf ++ chunk)),
     default [] (last (split 10%N (buf ++ chunk)))).
Proof. unfold take_lines, pop. rewrite or_empty_last. reflexivity. Qed.

(** Two chunks in a row are one chunk. *)
Lemma take_lines_app (buf c1 c2 : jsstring) :
  take_lines buf (c1 ++ c2)
  = (fst (take_lines buf c1) ++ fst (take_lines (snd (take_lines buf c1)) c2),
     snd (take_lines (snd (take_lines buf c1)) c2)).
Proof.
  rewrite !take_lines_eq. simpl.
  rewrite (app_assoc buf c1 c2), (split_app 10%N (buf ++ c1) c2).
  set (l1 := split 10%N (buf ++ c1)).
  set (l2 := split 10%N (default [] (last l1) ++ c2)).
  assert (Hne : l2 <> []) by apply split_not_nil.
  f_equal.
  - apply removelast_app, Hne.
  - destruct l2 as [|x l2] using rev_ind; [congruence|].
    rewrite app_assoc, !last_snoc. reflexivity.
Qed.

Lemma take_lines_nil (buf : jsstring) :
  Forall (fun c => c <> 10%N) buf -> take_lines buf [] = ([], buf).
Proof.
  intros Hbuf. rewrite take_lines_eq, app_nil_r, (split_no_sep _ _ Hbuf).
  reflexivity.
Qed.

(** The buffer left by [take_lines] holds no line terminator. *)
Lemma take_lines_rest (buf chunk : jsstring) :
  Forall (fun c => c <> 10%N) (snd (take_lines buf chunk)).
Proof.
  rewrite take_lines_eq. simpl. generalize (buf ++ chunk). intros s.
  induction s as [|c s IH]; simpl; [constructor|].
  pose proof (split_not_nil 10%N s) as Hne.
  destruct (N.eqb c 10) eqn:Hc.
  - destruct (split 10%N s) as [|seg segs]; [congruence|]. exact IH.
  - destruct (split 10%N s) as [|seg segs]; [congruence|].
    destruct segs as [|seg2 segs]; simpl in *.
    + constructor; [apply N.eqb_neq, Hc | exact IH].
    + exact IH.
Qed.

Lemma take_all_cons (chunks : list jsstring) (c buf : jsstring) :
  take_all buf (c :: chunks) = take_lines buf (concat (c :: chunks)).
Proof.
  revert c buf. induction chunks as [|c2 chunks IH]; intros c buf.
  - cbn [take_all concat]. rewrite app_nil_r.
    destruct (take_lines buf c) as [l1 b1]. rewrite app_nil_r. reflexivity.
  - cbn [concat]. rewrite take_lines_app.
    change (take_all buf (c :: c2 :: chunks))
      with (let '(lines1, buf1) := take_lines buf c in
            let '(lines2, buf2) := take_all buf1 (c2 :: chunks) in
            (lines1 ++ lines2, buf2)).
    destruct (take_lines buf c) as [l1 b1]. rewrite IH. cbn [concat fst snd].
    destruct (take_lines b1 (c2 ++ concat chunks)); reflexivity.
Qed.

Lemma take_all_concat (chunks : list jsstring) (buf : jsstring) :
  Forall (fun c => c <> 10%N) buf ->
  take_all buf chunks = take_lines buf (concat chunks).
Proof.
  intros Hbuf. destruct chunks as [|c chunks].
  - simpl. symmetry. apply take_lines_nil, Hbuf.
  - apply take_all_cons.
Qed.

End TakeLines.

(* ===================================================================== *)
(** ** Decoding a buffer in pieces *)
(* ===================================================================== *)

Section Utf8Lemmas.

Import Utf8.
Local Open Scope N_scope.

(** With no sequence open, the decoder reads as from its initial state. *)
Lemma drun_closed (st : dstate) (bs : list N) :
  bytes_needed st = 0 -> drun st bs = drun dinit bs.
Proof.
  intros H. destruct bs as [|b bs]; simpl.
  - rewrite H. reflexivity.
  - unfold dstep. rewrite H. reflexivity.
Qed.

Lemma drun_app (a b : list N) (st : dstate) :
  bytes_needed (dafter st a) = 0 ->
  drun st (a ++ b) = drun st a ++ drun dinit b.
Proof.
  revert st. induction a as [|x a IH]; intros st H; simpl in *.
  - rewrite H. simpl. apply drun_closed, H.
  - destruct (dstep st x) as [st' out] eqn:Hstep. simpl in H.
    rewrite (IH st' H), app_assoc. reflexivity.
Qed.

(** A buffer that ends on a character boundary decodes independently of
    what follows it. *)
Lemma toString_app (a b : list byte) :
  complete a = true -> toString (a ++ b) = toString a ++ toString b.
Proof.
  unfold complete, toString. intros H. apply N.eqb_eq in H.
  rewrite map_app, (drun_app _ _ _ H), map_app, concat_app. reflexivity.
Qed.

Lemma toString_concat (c : list byte) (chunks : list (list byte)) :
  Forall (fun d => complete d = true) (removelast (c :: chunks)) ->
  toString (concat (c :: chunks)) = concat (map toString (c :: chunks)).
Proof.
  revert c. induction chunks as [|c2 chunks IH]; intros c H.
  - simpl. rewrite !app_nil_r. reflexivity.
  - change (removelast (c :: c2 :: chunks)) with (c :: removelast (c2 :: chunks)) in H.
    inversion H as [|? ? Hc Hrest]; subst.
    change (concat (c :: c2 :: chunks)) with (c ++ concat (c2 :: chunks)).
    rewrite (toString_app _ _ Hc), (IH c2 Hrest). reflexivity.
Qed.

End Utf8Lemmas.

(* ===================================================================== *)
(** ** JSON.stringify prints one line *)
(* ===================================================================== *)

Section StringifyLemmas.

Local Open Scope N_scope.

Lemma no_nl_app (s t : jsstring) : no_nl s -> no_nl t -> no_nl (s ++ t).
Proof. intros Hs Ht. apply Forall_app. split; assumption. Qed.























End StringifyLemmas.

(* ===================================================================== *)
(** ** Processing lines *)
(* ===================================================================== *)

Section LineLemmas.

Variable h : Host.

Lemma only_removes_refl (b : Bridge) : only_removes b b.
Proof. unfold only_removes. auto. Qed.

Lemma only_removes_trans (b1 b2 b3 : Bridge) :
  only_removes b1 b2 -> only_removes b2 b3 -> only_removes b1 b3.
Proof.
  unfold only_removes. intros (?&?&?&?&?) (?&?&?&?&?).
  repeat split; try congruence. etrans; eassumption.
Qed.

Lemma pending_delete_subseteq (id : value) (m : gmap Z promise) :
  pending_delete id m ⊆ m.
Proof.
  unfold pending_delete. destruct (key_of id); [apply delete_subseteq | reflexivity].
Qed.

Lemma round_double_exact (z : Z) :
  (Z.abs z <= 2 ^ 53)%Z -> round_double z = Some z.
Proof.
  intros Hz. unfold round_double. apply Z.leb_le in Hz. rewrite Hz. reflexivity.
Qed.

Lemma key_of_exact (z : Z) :
  (Z.abs z <= 2 ^ 53)%Z -> key_of (Some (JNum z)) = Some z.
Proof. apply round_double_exact. Qed.

Lemma json_null_or_not (response : json) : response = JNull \/ response <> JNull.
Proof. destruct response; [left; reflexivity | right; discriminate ..]. Qed.

(** What [resolveRequest] does on a value that can be destructured. *)
Lemma resolveRequest_eq (response : json) (b : Bridge) :
  response <> JNull ->
  resolveRequest response b
  = match pending_get (get (lit "id") response) (pendingRequests b) with
    | Some request =>
        if truthy (get (lit "error") response) then
          if message_throws (get (lit "error") response ≫= get (lit "message"))
          then Throw TypeError
          else
            Normal (set_pendingRequests
                      (pending_delete (get (lit "id") response) (pendingRequests b)) b,
                    [Reject request
                       (ErrorOf (get (lit "error") response ≫= get (lit "message")))])
        else
          Normal (set_pendingRequests
                    (pending_delete (get (lit "id") response) (pendingRequests b)) b,
                  [Resolve request (get (lit "result") response)])
    | None => Normal (b, [])
    end.
Proof. intros Hr. destruct response; [congruence | reflexivity ..]. Qed.

Lemma resolveRequest_only_removes (response : json) (b b' : Bridge) evs :
  resolveRequest response b = Normal (b', evs) -> only_removes b b'.
Proof.
  destruct (json_null_or_not response) as [->|Hr]; [discriminate|].
  rewrite (resolveRequest_eq _ _ Hr).
  destruct (pending_get _ _); [destruct (truthy _); [destruct (message_throws _)|]|];
    intros H; inversion H; subst;
    try (unfold only_removes; simpl; repeat split; apply pending_delete_subseteq).
  apply only_removes_refl.
Qed.

Lemma dispatch_only_removes (t : jsstring) (b : Bridge) :
  only_removes b (fst (dispatch h t b)).
Proof.
  unfold dispatch. destruct (JSON_parse h t) as [response|];
    [|apply only_removes_refl].
  destruct (resolveRequest response b) as [[b' evs]|e] eqn:Hr;
    [|apply only_removes_refl].
  eapply resolveRequest_only_removes, Hr.
Qed.

Lemma handleLine_only_removes (line : jsstring) (b : Bridge) :
  only_removes b (fst (handleLine h line b)).
Proof.
  unfold handleLine. destruct (classify line);
    [apply only_removes_refl | apply only_removes_refl |].
  apply dispatch_only_removes.
Qed.

Lemma handleLines_only_removes (lines : list jsstring) (b : Bridge) :
  only_removes b (fst (handleLines h lines b)).
Proof.
  revert b. induction lines as [|line lines IH]; intros b; simpl.
  - apply only_removes_refl.
  - pose proof (handleLine_only_removes line b) as H1.
    destruct (handleLine h line b) as [b1 evs1]. specialize (IH b1).
    destruct (handleLines h lines b1) as [b2 evs2]. simpl in *.
    eapply only_removes_trans; eassumption.
Qed.

(** The buffer plays no part in the processing of a line. *)
Lemma resolveRequest_set_buffer (s : jsstring) (response : json) (b : Bridge) :
  resolveRequest response (set_buffer s b)
  = match resolveRequest response b with
    | Normal (b', evs) => Normal (set_buffer s b', evs)
    | Throw e => Throw e
    end.
Proof.
  destruct (json_null_or_not response) as [->|Hr]; [reflexivity|].
  rewrite !(resolveRequest_eq _ _ Hr). cbn [pendingRequests set_buffer].
  destruct (pending_get _ _); [destruct (truthy _); [destruct (message_throws _)|]|];
    reflexivity.
Qed.

Lemma handleLine_set_buffer (s : jsstring) (line : jsstring) (b : Bridge) :
  handleLine h line (set_buffer s b)
  = (set_buffer s (fst (handleLine h line b)), snd (handleLine h line b)).
Proof.
  unfold handleLine. destruct (classify line); try reflexivity.
  unfold dispatch. destruct (JSON_parse h (trim line)) as [response|];
    [|reflexivity].
  rewrite resolveRequest_set_buffer.
  destruct (resolveRequest response b) as [[b' evs]|e]; reflexivity.
Qed.

Lemma handleLines_set_buffer (s : jsstring) (lines : list jsstring) (b : Bridge) :
  handleLines h lines (set_buffer s b)
  = (set_buffer s (fst (handleLines h lines b)), snd (handleLines h lines b)).
Proof.
  revert b. induction lines as [|line lines IH]; intros b; [reflexivity|].
  cbn [handleLines]. rewrite handleLine_set_buffer.
  destruct (handleLine h line b) as [b1 evs1]. cbn [fst snd].
  rewrite IH. destruct (handleLines h lines b1) as [b2 evs2]. reflexivity.
Qed.

Lemma handleLines_app (l1 l2 : list jsstring) (b : Bridge) :
  handleLines h (l1 ++ l2) b
  = (fst (handleLines h l2 (fst (handleLines h l1 b))),
     snd (handleLines h l1 b) ++ snd (handleLines h l2 (fst (handleLines h l1 b)))).
Proof.
  revert b. induction l1 as [|line l1 IH]; intros b.
  - simpl. destruct (handleLines h l2 b); reflexivity.
  - cbn [app handleLines]. destruct (handleLine h line b) as [b1 evs1].
    rewrite IH. destruct (handleLines h l1 b1) as [b2 evs2]. cbn [fst snd].
    destruct (handleLines h l2 b2) as [b3 evs3]. cbn [fst snd].
    rewrite app_assoc. reflexivity.
Qed.

Lemma set_buffer_twice (s t : jsstring) (b : Bridge) :
  set_buffer s (set_buffer t b) = set_buffer s b.
Proof. reflexivity. Qed.

Lemma handleData_eq (chunk : jsstring) (b : Bridge) :
  handleData h chunk b
  = (set_buffer (snd (take_lines (buffer b) chunk))
       (fst (handleLines h (fst (take_lines (buffer b) chunk)) b)),
     snd (handleLines h (fst (take_lines (buffer b) chunk)) b)).
Proof.
  unfold handleData. destruct (take_lines (buffer b) chunk) as [lines rest].
  cbn [fst snd]. apply handleLines_set_buffer.
Qed.

Lemma handleData_buffer (chunk : jsstring) (b : Bridge) :
  buffer (fst (handleData h chunk b)) = snd (take_lines (buffer b) chunk).
Proof. rewrite handleData_eq. reflexivity. Qed.

(** Two chunks in a row are handled as their concatenation. *)
Lemma handleData_app (c1 c2 : jsstring) (b : Bridge) :
  handleData h (c1 ++ c2) b
  = (fst (handleData h c2 (fst (handleData h c1 b))),
     snd (handleData h c1 b) ++ snd (handleData h c2 (fst (handleData h c1 b)))).
Proof.
  rewrite (handleData_eq c2), (handleData_buffer c1 b).
  rewrite (handleData_eq (c1 ++ c2)), take_lines_app. cbn [fst snd].
  rewrite handleLines_app. cbn [fst snd].
  rewrite (handleData_eq c1). cbn [fst snd].
  rewrite handleLines_set_buffer. cbn [fst snd].
  rewrite set_buffer_twice. reflexivity.
Qed.

Lemma handleChunks_cons (chunks : list jsstring) (c : jsstring) (b : Bridge) :
  handleChunks h (c :: chunks) b = handleData h (concat (c :: chunks)) b.
Proof.
  revert c b. induction chunks as [|c2 chunks IH]; intros c b.
  - cbn [handleChunks concat]. rewrite app_nil_r.
    destruct (handleData h c b) as [b1 evs1]. rewrite app_nil_r. reflexivity.
  - change (handleChunks h (c :: c2 :: chunks) b)
      with (let '(b1, evs1) := handleData h c b in
            let '(b2, evs2) := handleChunks h (c2 :: chunks) b1 in
            (b2, evs1 ++ evs2)).
    change (concat (c :: c2 :: chunks)) with (c ++ concat (c2 :: chunks)).
    rewrite handleData_app.
    destruct (handleData h c b) as [b1 evs1]. rewrite IH. cbn [fst snd].
    destruct (handleData h (concat (c2 :: chunks)) b1); reflexivity.
Qed.

Lemma handleData_nil (b : Bridge) :
  buffer_ok b -> handleData h [] b = (b, []).
Proof.
  intros Hb. unfold handleData. rewrite (take_lines_nil _ Hb).
  simpl. destruct b; reflexivity.
Qed.

Lemma handleData_only_removes_but_buffer (chunk : jsstring) (b : Bridge) :
  only_removes (set_buffer (buffer (fst (handleData h chunk b))) b)
               (fst (handleData h chunk b)).
Proof.
  rewrite handleData_eq. cbn [fst snd buffer set_buffer].
  pose proof (handleLines_only_removes (fst (take_lines (buffer b) chunk)) b)
    as (?&?&?&?&?).
  unfold only_removes. simpl. auto.
Qed.

End LineLemmas.

(* ===================================================================== *)
(** ** The life cycle and the registry *)
(* ===================================================================== *)

Section LifeCycleLemmas.

Local Open Scope Z_scope.

Variable h : Host.

Lemma js_incr_exact (x : Z) : x < 2 ^ 53 -> js_incr x = x + 1.
Proof. unfold js_incr. intros H. apply Z.ltb_lt in H. rewrite H. reflexivity. Qed.

(** [send] with a worker attached: no launch. *)
Lemma send_attached (p : promise) (method : jsstring) (params : value)
    (b : Bridge) (c : ChildProcess) :
  child b = Some c ->
  send h p method params b
  = Normal (set_pendingRequests (<[js_incr (requestId b) := p]> (pendingRequests b))
              (set_requestId (js_incr (requestId b)) b),
            [StdinWrite c
               (stringify (request_object method (default (JObj []) params)
                             (js_incr (requestId b))) ++ [10%N])]).
Proof.
  intros Hc. unfold send, send_any. rewrite Hc. simpl. rewrite Hc. reflexivity.
Qed.

(** [send] with no worker attached and a path that resolves: a launch. *)
Lemma send_launch (p : promise) (method : jsstring) (params : value)
    (b : Bridge) (path : jsstring) :
  child b = None -> getBinaryPath h b = Normal path ->
  send h p method params b
  = Normal (set_pendingRequests (<[js_incr (requestId b) := p]> (pendingRequests b))
              (set_requestId (js_incr (requestId b))
                 (set_child (Some (Spawned path)) b)),
            [ConsoleLog [lit "[OmniAgentPay] Spawning sidecar: " ++ path];
             Spawn path;
             StdinWrite (Spawned path)
               (stringify (request_object method (default (JObj []) params)
                             (js_incr (requestId b))) ++ [10%N])]).
Proof.
  intros Hc Hp. unfold send, send_any, start. rewrite Hc, Hp. reflexivity.
Qed.

(** [send] with no worker attached and no path: the failure of [start]. *)
Lemma send_launch_failure (p : promise) (method : jsstring) (params : value)
    (b : Bridge) (e : jserror) :
  child b = None -> getBinaryPath h b = Throw e ->
  send h p method params b = Throw e.
Proof. intros Hc Hp. unfold send, send_any, start. rewrite Hc, Hp. reflexivity. Qed.

(** The three outcomes of [send], by cases. *)
Lemma send_cases (p : promise) (method : jsstring) (params : value) (b : Bridge) :
  (exists e, child b = None /\ getBinaryPath h b = Throw e /\
             send h p method params b = Throw e)
  \/ (exists b1 evs,
        send h p method params b
        = Normal (set_pendingRequests
                    (<[js_incr (requestId b) := p]> (pendingRequests b))
                    (set_requestId (js_incr (requestId b)) b1), evs)
        /\ binaryPath b1 = binaryPath b /\ requestId b1 = requestId b
        /\ pendingRequests b1 = pendingRequests b /\ buffer b1 = buffer b
        /\ is_Some (child b1)).
Proof.
  destruct (child b) as [c|] eqn:Hc.
  - right. eexists b, _. rewrite (send_attached _ _ _ _ _ Hc).
    repeat split; try reflexivity. rewrite Hc. eauto.
  - destruct (getBinaryPath h b) as [path|e] eqn:Hp.
    + right. eexists (set_child (Some (Spawned path)) b), _.
      rewrite (send_launch _ _ _ _ _ Hc Hp).
      repeat split; try reflexivity. simpl. eauto.
    + left. exists e. repeat split; try reflexivity.
      apply send_launch_failure; assumption.
Qed.

Lemma start_fields (b b' : Bridge) evs :
  start h b = Normal (b', evs) ->
  binaryPath b' = binaryPath b /\ requestId b' = requestId b /\
  pendingRequests b' = pendingRequests b /\ buffer b' = buffer b.
Proof.
  unfold start. destruct (getBinaryPath h b); [|discriminate].
  intros H. inversion H; subst. repeat split.
Qed.

(** An action moves the counter by the number of ids it allocates. *)
Lemma step_requestId (a : action) (b : Bridge) :
  requestId b < 2 ^ 53 ->
  requestId (fst (step h a b))
  = requestId b + Z.of_nat (length (allocated h a b)).
Proof.
  intros Hlt. destruct a as [ |p method params| |data|code|e0 listened]; simpl.
  - destruct (start h b) as [[b' evs]|e] eqn:Hs; simpl; [|lia].
    apply start_fields in Hs as (_&->&_). lia.
  - destruct (send_cases p method params b)
      as [(e&_&_&->)|(b1&evs&->&_&_&_&_&_)]; simpl; [lia|].
    rewrite (js_incr_exact _ Hlt). lia.
  - lia.
  - unfold on_stdout_data.
    pose proof (handleData_only_removes_but_buffer h (Utf8.toString data) b)
      as (_&_&->&_). simpl. lia.
  - lia.
  - lia.
Qed.

Lemma allocated_length (a : action) (b : Bridge) :
  (length (allocated h a b) <= 1)%nat.
Proof.
  destruct a; simpl; try lia.
  destruct (send h p method params b) as [[b' evs]|e]; simpl; lia.
Qed.

(** An action keeps the invariant of the registry. *)
Lemma step_registry_ok (a : action) (b : Bridge) :
  requestId b < 2 ^ 53 -> registry_ok b -> registry_ok (fst (step h a b)).
Proof.
  intros Hlt [H0 Hkeys]. destruct a as [ |p method params| |data|code|e0 listened]; simpl.
  - destruct (start h b) as [[b' evs]|e] eqn:Hs; simpl; [|split; assumption].
    apply start_fields in Hs as (_&Hr&Hp&_). unfold registry_ok.
    rewrite Hr, Hp. split; assumption.
  - destruct (send_cases p method params b)
      as [(e&_&_&->)|(b1&evs&->&_&_&Hp&_&_)]; simpl; [split; assumption|].
    unfold registry_ok. simpl. rewrite (js_incr_exact _ Hlt).
    split; [lia|]. intros k Hk.
    destruct (decide (k = requestId b + 1)) as [->|Hne]; [lia|].
    rewrite lookup_insert_ne in Hk by congruence.
    specialize (Hkeys k Hk). lia.
  - split; assumption.
  - unfold on_stdout_data.
    pose proof (handleData_only_removes_but_buffer h (Utf8.toString data) b)
      as (_&_&Hr&_&Hsub). simpl in Hr, Hsub.
    unfold registry_ok. rewrite Hr. split; [assumption|].
    intros k [q Hk]. apply Hkeys. exists q.
    eapply lookup_weaken; eassumption.
  - split; assumption.
  - split; assumption.
Qed.

(** An action keeps the invariant of the decoder. *)
Lemma step_buffer_ok (a : action) (b : Bridge) :
  buffer_ok b -> buffer_ok (fst (step h a b)).
Proof.
  unfold buffer_ok. intros Hb.
  destruct a as [ |p method params| |data|code|e0 listened]; simpl; try assumption.
  - destruct (start h b) as [[b' evs]|e] eqn:Hs; simpl; [|assumption].
    apply start_fields in Hs as (_&_&_&->). assumption.
  - destruct (send_cases p method params b)
      as [(e&_&_&->)|(b1&evs&->&_&_&_&Hbuf&_)]; simpl; [assumption|].
    rewrite Hbuf. assumption.
  - unfold on_stdout_data. rewrite handleData_buffer. apply take_lines_rest.
Qed.

End LifeCycleLemmas.

Section Histories.

Local Open Scope Z_scope.

Lemma run_cons (h : Host) (a : action) (tr : list (Host * action)) (b : Bridge) :
  run ((h, a) :: tr) b
  = (fst (run tr (fst (step h a b))),
     snd (step h a b) ++ snd (run tr (fst (step h a b)))).
Proof.
  simpl. destruct (step h a b) as [b1 evs1]. simpl.
  destruct (run tr b1); reflexivity.
Qed.

(** Along a history shorter than the room left below 2^53, the invariants
    hold at the end and the counter has moved by the number of ids. *)
Lemma run_invariants (tr : list (Host * action)) (b : Bridge) :
  requestId b + Z.of_nat (length tr) < 2 ^ 53 ->
  registry_ok b ->
  registry_ok (fst (run tr b)) /\
  requestId (fst (run tr b)) = requestId b + Z.of_nat (length (sent_ids tr b)) /\
  (length (sent_ids tr b) <= length tr)%nat.
Proof.
  revert b. induction tr as [|[h a] tr IH]; intros b Hlt Hok.
  - simpl. split; [exact Hok | split; lia].
  - rewrite run_cons. cbn [fst sent_ids]. cbn [length] in Hlt.
    assert (Hb : requestId b < 2 ^ 53) by lia.
    pose proof (step_requestId h a b Hb) as Hr.
    pose proof (allocated_length h a b) as Hl.
    pose proof (step_registry_ok h a b Hb Hok) as Hok1.
    destruct (IH (fst (step h a b))) as (Hok2 & Hr2 & Hl2); [lia | assumption |].
    rewrite length_app. split; [exact Hok2 | split].
    + rewrite Hr2, Hr, Nat2Z.inj_add. ring.
    + cbn [length]. lia.
Qed.

(** The buffer never holds a line terminator between two calls. *)
Lemma run_buffer_ok (tr : list (Host * action)) (b : Bridge) :
  buffer_ok b -> buffer_ok (fst (run tr b)).
Proof.
  revert b. induction tr as [|[h a] tr IH]; intros b Hb; [assumption|].
  rewrite run_cons. apply IH, step_buffer_ok, Hb.
Qed.

Lemma map_seq_shift (c : Z) (k n s : nat) :
  map (fun i => c + Z.of_nat k + Z.of_nat i) (seq s n)
  = map (fun i => c + Z.of_nat i) (seq (s + k) n).
Proof.
  revert s. induction n as [|n IH]; intros s; [reflexivity|].
  simpl. rewrite IH. f_equal. lia.
Qed.

(** The ids allocated along a history count up from the counter. *)
Lemma sent_ids_from (tr : list (Host * action)) (b : Bridge) :
  requestId b + Z.of_nat (length tr) < 2 ^ 53 ->
  sent_ids tr b
  = map (fun i => requestId b + Z.of_nat i) (seq 1 (length (sent_ids tr b))).
Proof.
  revert b. induction tr as [|[h a] tr IH]; intros b Hlt; [reflexivity|].
  cbn [sent_ids length] in *.
  assert (Hb : requestId b < 2 ^ 53) by lia.
  pose proof (step_requestId h a b Hb) as Hr.
  pose proof (allocated_length h a b) as Hl.
  rewrite length_app, seq_app, map_app. f_equal.
  - destruct (allocated h a b) as [|id [|id2 ids]] eqn:Ha;
      [reflexivity | | simpl in Hl; lia].
    simpl in Hr |- *. f_equal.
    destruct a as [ |p method params| |data|code|e0 listened]; try discriminate.
    simpl in Ha, Hr.
    destruct (send h p method params b) as [[b' evs]|e]; [|discriminate].
    inversion Ha; subst. simpl in Hr. lia.
  - rewrite (IH (fst (step h a b))) at 1 by lia.
    rewrite Hr. apply map_seq_shift.
Qed.

End Histories.

(* ===================================================================== *)
(** ** Termination of the worker: exit and stop() *)
(* ===================================================================== *)

Section Termination.

Import Examples.
Local Open Scope Z_scope.

(** C1, as the code has it. When the worker exits, with any exit code or
    with none after a signal, the listener writes one warning that names
    the code, sets the worker handle to null and emits the event [exit] with
    the code. [stop()] kills the worker if one is attached and sets the
    handle to null. Neither does anything else: the pending map, the id
    counter, the buffer and the configured path are as they were, and no
    promise is resolved or rejected. *)
Theorem C1_exit_and_stop_keep_pending (code : option Z) (b : Bridge) :
  on_exit code b
  = ({| binaryPath := binaryPath b; child := None; requestId := requestId b;
        pendingRequests := pendingRequests b; buffer := buffer b |},
     [ConsoleWarn [lit "[OmniAgentPay] Sidecar exited with code "
                   ++ match code with
                      | Some z => of_Z z
                      | None => lit "null"
                      end];
      Emit (lit "exit") code]) /\
  stop b
  = ({| binaryPath := binaryPath b; child := None; requestId := requestId b;
        pendingRequests := pendingRequests b; buffer := buffer b |},
     match child b with
     | Some c => [Kill c]
     | None => []
     end) /\
  List.filter is_settlement (snd (on_exit code b)) = [] /\
  List.filter is_settlement (snd (stop b)) = [] /\
  pendingRequests (fst (on_exit code b)) = pendingRequests b /\
  pendingRequests (fst (stop b)) = pendingRequests b.
Proof.
  split; [reflexivity|]. split; [reflexivity|].
  split; [reflexivity|]. split; [|split; reflexivity].
  unfold stop. cbn [snd]. destruct (child b); reflexivity.
Qed.

(** C1 fails as stated: with request 1 pending for promise 7, neither the
    exit of the worker nor [stop()] settles promise 7, and the entry stays
    in the map. *)
Lemma C1_pending_left_unsettled :
  pendingRequests one_pending !! 1 = Some 7%nat /\
  List.filter (settles 7%nat) (snd (on_exit (Some 1) one_pending)) = [] /\
  pendingRequests (fst (on_exit (Some 1) one_pending)) !! 1 = Some 7%nat /\
  List.filter (settles 7%nat) (snd (stop one_pending)) = [] /\
  pendingRequests (fst (stop one_pending)) !! 1 = Some 7%nat.
Proof. repeat split; vm_compute; reflexivity. Qed.

End Termination.

(* ===================================================================== *)
(** ** The request line of send() *)
(* ===================================================================== *)

Section RequestLine.

Import Examples.
Local Open Scope Z_scope.







End RequestLine.

(* ===================================================================== *)
(** ** The frame decoder and chunk boundaries *)
(* ===================================================================== *)

Section Chunking.

Import Examples.

Lemma split_line (sep : N) (l rest : jsstring) :
  Forall (fun c => c <> sep) l ->
  split sep (l ++ sep :: rest) = l :: split sep rest.
Proof.
  induction 1 as [|c l Hc Hl IH]; simpl.
  - rewrite N.eqb_refl. reflexivity.
  - apply N.eqb_neq in Hc. rewrite Hc, IH. reflexivity.
Qed.

Lemma split_frames (lines : list jsstring) (rest : jsstring) :
  Forall no_nl lines -> no_nl rest ->
  split 10%N (concat (map (fun l => l ++ [10%N]) lines) ++ rest)
  = lines ++ [rest].
Proof.
  intros Hlines Hrest. induction Hlines as [|l lines Hl Hlines IH]; simpl.
  - apply split_no_sep, Hrest.
  - rewrite <- !app_assoc. simpl. rewrite (split_line _ _ _ Hl), IH.
    reflexivity.
Qed.

Lemma removelast_last_default (l : list jsstring) :
  l <> [] -> removelast l ++ [default [] (last l)] = l.
Proof.
  destruct l as [|x l] using rev_ind; [congruence|]. intros _.
  rewrite removelast_last, last_snoc. reflexivity.
Qed.

(** The lines taken and the buffer kept, joined again, are the old buffer
    followed by the chunk. *)
Lemma take_lines_join (buf chunk : jsstring) :
  join [10%N] (fst (take_lines buf chunk) ++ [snd (take_lines buf chunk)])
  = buf ++ chunk.
Proof.
  rewrite take_lines_eq. cbn [fst snd].
  rewrite removelast_last_default by apply split_not_nil.
  apply join_split.
Qed.

Lemma run_stdout_data (h : Host) (datas : list (list byte)) (b : Bridge) :
  run (map (fun d => (h, StdoutData d)) datas) b
  = handleChunks h (map Utf8.toString datas) b.
Proof.
  revert b. induction datas as [|d datas IH]; intros b; [reflexivity|].
  change (map (fun d => (h, StdoutData d)) (d :: datas))
    with ((h, StdoutData d) :: map (fun d => (h, StdoutData d)) datas).
  rewrite run_cons, IH. cbn [step handleChunks map]. unfold on_stdout_data.
  destruct (handleData h (Utf8.toString d) b) as [b1 evs1]. cbn [fst snd].
  destruct (handleChunks h (map Utf8.toString datas) b1); reflexivity.
Qed.

(** No segment of a split holds the separator. *)
Lemma split_segments (sep : N) (s : jsstring) :
  Forall (Forall (fun c => c <> sep)) (split sep s).
Proof.
  induction s as [|c s IH]; cbn [split].
  - repeat constructor.
  - destruct (N.eqb c sep) eqn:Hc.
    + constructor; [constructor | exact IH].
    + apply N.eqb_neq in Hc. destruct (split sep s) as [|seg segs].
      * repeat constructor. exact Hc.
      * inversion IH; subst. constructor; [constructor; assumption | assumption].
Qed.

Lemma joined_lines (lines : list jsstring) (rest : jsstring) :
  join [10%N] (lines ++ [rest])
  = concat (map (fun l => l ++ [10%N]) lines) ++ rest.
Proof.
  induction lines as [|l lines IH]; [reflexivity|].
  change (join [10%N] ((l :: lines) ++ [rest]))
    with (join [10%N] (l :: (lines ++ [rest]))).
  destruct (lines ++ [rest]) as [|x xs] eqn:Hx.
  - destruct lines; discriminate.
  - change (join [10%N] (l :: x :: xs))
      with (l ++ [10%N] ++ join [10%N] (x :: xs)).
    rewrite IH. cbn [map concat]. rewrite <- !app_assoc. reflexivity.
Qed.

(** The lines a chunk completes and the segment it leaves are those of the
    text: they hold no line terminator and, each line followed by one, make
    up the old buffer and the chunk. *)
Lemma take_lines_frames (buf chunk : jsstring) :
  Forall no_nl (fst (take_lines buf chunk)) /\
  no_nl (snd (take_lines buf chunk)) /\
  buf ++ chunk
  = concat (map (fun l => l ++ [10%N]) (fst (take_lines buf chunk)))
    ++ snd (take_lines buf chunk).
Proof.
  pose proof (split_segments 10%N (buf ++ chunk)) as Hseg.
  pose proof (take_lines_join buf chunk) as Hjoin.
  rewrite joined_lines in Hjoin.
  rewrite take_lines_eq in *. cbn [fst snd] in *.
  pose proof (removelast_last_default (split 10%N (buf ++ chunk))
                (split_not_nil _ _)) as Hl.
  rewrite <- Hl in Hseg. apply Forall_app in Hseg as [H1 H2].
  inversion H2; subst. repeat split; [assumption | assumption | ].
  symmetry. exact Hjoin.
Qed.

(** A text is cut into lines and a last segment in one way only. *)
Lemma take_lines_unique (buf chunk : jsstring)
    (lines : list jsstring) (rest : jsstring) :
  Forall no_nl lines -> no_nl rest ->
  buf ++ chunk = concat (map (fun l => l ++ [10%N]) lines) ++ rest ->
  take_lines buf chunk = (lines, rest).
Proof.
  intros Hlines Hrest Heq. rewrite take_lines_eq, Heq.
  rewrite (split_frames _ _ Hlines Hrest).
  rewrite removelast_last, last_snoc. reflexivity.
Qed.

(** C3, as the code has it. The decoder works on text: each chunk of bytes
    is first decoded to a string on its own. After any history of an
    instance, a chunk of text is handled thus. The buffer followed by the
    chunk is cut at the line terminators: whenever this text is a list of
    lines, each without line terminator and followed by one, and a last
    segment without line terminator (and it always is, in one way), exactly
    these lines are processed, in order, and the last segment - empty or
    partial - is kept as the new buffer. Feeding a list of chunks one at a
    time does the same - same effects in the same order, same instance, same
    buffer - as feeding their concatenation as one chunk, and so any two
    ways of cutting one text into chunks do the same. For chunks of bytes
    this holds when every chunk but the last ends on a character
    boundary. *)
Theorem C3_chunk_boundaries_on_text
    (h : Host) (tr : list (Host * action)) (bp : option jsstring) :
  let b := fst (run tr (new_bridge bp)) in
  (forall (chunk : jsstring) (lines : list jsstring) (rest : jsstring),
     Forall no_nl lines -> no_nl rest ->
     buffer b ++ chunk = concat (map (fun l => l ++ [10%N]) lines) ++ rest ->
     handleData h chunk b = handleLines h lines (set_buffer rest b) /\
     buffer (fst (handleData h chunk b)) = rest) /\
  (forall chunk : jsstring,
     exists lines rest,
       Forall no_nl lines /\ no_nl rest /\
       buffer b ++ chunk = concat (map (fun l => l ++ [10%N]) lines) ++ rest) /\
  (forall chunks : list jsstring,
     handleChunks h chunks b = handleData h (concat chunks) b) /\
  (forall chunks1 chunks2 : list jsstring,
     concat chunks1 = concat chunks2 ->
     handleChunks h chunks1 b = handleChunks h chunks2 b) /\
  (forall datas : list (list byte),
     Forall (fun d => Utf8.complete d = true) (removelast datas) ->
     run (map (fun d => (h, StdoutData d)) datas) b
     = on_stdout_data h (concat datas) b).
Proof.
  intros b.
  assert (Hb : buffer_ok b) by (apply run_buffer_ok; constructor).
  assert (Hchunks : forall chunks : list jsstring,
            handleChunks h chunks b = handleData h (concat chunks) b).
  { intros [|c chunks].
    - simpl. symmetry. apply handleData_nil, Hb.
    - apply handleChunks_cons. }
  split; [|split; [|split; [|split]]].
  - intros chunk lines rest Hlines Hrest Heq.
    pose proof (take_lines_unique _ _ _ _ Hlines Hrest Heq) as Ht.
    split.
    + unfold handleData. rewrite Ht. reflexivity.
    + rewrite handleData_buffer, Ht. reflexivity.
  - intros chunk.
    exists (fst (take_lines (buffer b) chunk)), (snd (take_lines (buffer b) chunk)).
    apply take_lines_frames.
  - exact Hchunks.
  - intros chunks1 chunks2 Heq. rewrite !Hchunks, Heq. reflexivity.
  - intros datas Hdatas. rewrite run_stdout_data. unfold on_stdout_data.
    destruct datas as [|d datas].
    + simpl. symmetry. apply (handleData_nil h b Hb).
    + rewrite (toString_concat d datas Hdatas). apply handleChunks_cons.
Qed.

Lemma C3_chunk_boundaries_on_text_witness :
  (Forall no_nl [lit "log: ready"; reply_result] /\ no_nl (lit "{'js") /\
   buffer (fst (run [(host_installed, CallSend 7%nat (lit "health") None);
                     (host_installed, StdoutData [x6c; x6f; x67])]
                    (new_bridge None)))
   ++ lit ": ready" ++ [10%N] ++ reply_result ++ [10%N] ++ lit "{'js"
   = concat (map (fun l => l ++ [10%N]) [lit "log: ready"; reply_result])
     ++ lit "{'js" /\
   handleData host_installed
     (lit ": ready" ++ [10%N] ++ reply_result ++ [10%N] ++ lit "{'js")
     (fst (run [(host_installed, CallSend 7%nat (lit "health") None);
                (host_installed, StdoutData [x6c; x6f; x67])]
               (new_bridge None)))
   = (set_buffer (lit "{'js") (set_pendingRequests ∅ one_pending),
      [ConsoleError [lit "[OmniAgentPay Sidecar Log] log: ready"];
       Resolve 7%nat (Some (JBool true))])) /\
  (Forall (fun d => Utf8.complete d = true)
          (removelast [[x6c; x6f; x67; x3a; x20; xc3; xa9]; [x0a; x7b]; [xc3]]) /\
   run (map (fun d => (host_installed, StdoutData d))
            [[x6c; x6f; x67; x3a; x20; xc3; xa9]; [x0a; x7b]; [xc3]])
       one_pending
   = on_stdout_data host_installed
       [x6c; x6f; x67; x3a; x20; xc3; xa9; x0a; x7b; xc3] one_pending).
Proof.
  assert (H1 : Forall no_nl [lit "log: ready"; reply_result])
    by (vm_compute; repeat constructor; discriminate).
  assert (H2 : no_nl (lit "{'js"))
    by (vm_compute; repeat constructor; discriminate).
  assert (Hd : Forall (fun d => Utf8.complete d = true)
                 (removelast [[x6c; x6f; x67; x3a; x20; xc3; xa9]; [x0a; x7b]; [xc3]]))
    by (repeat constructor).
  split.
  - split; [exact H1|]. split; [exact H2|]. split; [reflexivity|].
    rewrite (proj1 (proj1 (C3_chunk_boundaries_on_text host_installed
                             [(host_installed, CallSend 7%nat (lit "health") None);
                              (host_installed, StdoutData [x6c; x6f; x67])]
                             None)
                      (lit ": ready" ++ [10%N] ++ reply_result ++ [10%N]
                       ++ lit "{'js")
                      [lit "log: ready"; reply_result] (lit "{'js")
                      H1 H2 eq_refl)).
    reflexivity.
  - split; [exact Hd|].
    exact (proj2 (proj2 (proj2 (proj2 (C3_chunk_boundaries_on_text host_installed
                         [(host_installed, CallSend 7%nat (lit "health") None)]
                         None)))) _ Hd).
Defined.

(** C3 fails as stated: the two bytes of the character U+00E9 delivered in
    two chunks are decoded as two replacement characters, and the line
    processed is not the line of the same bytes delivered in one chunk. *)
Lemma C3_split_inside_a_character :
  snd (run [(host_installed, StdoutData [xc3]);
            (host_installed, StdoutData [xa9; x0a])] (new_bridge None))
  = [ConsoleError [lit "[OmniAgentPay Sidecar Log] " ++ [65533%N; 65533%N]]] /\
  snd (run [(host_installed, StdoutData [xc3; xa9; x0a])] (new_bridge None))
  = [ConsoleError [lit "[OmniAgentPay Sidecar Log] " ++ [233%N]]] /\
  run [(host_installed, StdoutData [xc3]);
       (host_installed, StdoutData [xa9; x0a])] (new_bridge None)
  <> run [(host_installed, StdoutData [xc3; xa9; x0a])] (new_bridge None).
Proof.
  split; [reflexivity|]. split; [reflexivity|].
  intros H. apply (f_equal snd) in H. vm_compute in H. discriminate.
Qed.

End Chunking.

(* ===================================================================== *)
(** ** Classification of lines *)
(* ===================================================================== *)

Section Classification.

Import Examples.

Lemma startsWith_brace (s : jsstring) :
  startsWith s (lit "{") = true <-> head s = Some 123%N.
Proof.
  destruct s as [|c s]; [split; discriminate|].
  change (startsWith (c :: s) (lit "{")) with (N.eqb c 123 && true)%bool.
  rewrite andb_true_r, N.eqb_eq. simpl. split; congruence.
Qed.

Lemma classify_Protocol (line : jsstring) :
  classify line = Protocol <-> trim line <> [] /\ head (trim line) = Some 123%N.
Proof.
  unfold classify. destruct (trim line) as [|c s] eqn:Ht.
  - simpl. split; [discriminate | intros [H _]; congruence].
  - cbn [truthy_string negb].
    destruct (startsWith (c :: s) (lit "{")) eqn:Hs; cbn [negb].
    + apply startsWith_brace in Hs. split; [split; congruence | reflexivity].
    + split; [discriminate|]. intros [_ H]. apply startsWith_brace in H.
      congruence.
Qed.

(** C4. A line is protocol traffic if and only if its trimmed text is not
    empty and starts with an opening brace. Such a line is parsed and the
    parsed value is handed to [resolveRequest], whose effects are those of
    the line: a response without error whose id is the number of a pending
    entry resolves the promise of the entry and removes it. When the parse
    fails, or [resolveRequest] throws, one console message reports the line
    and the instance is left as it is: the failure does not escape. A line
    whose trimmed text is not empty and starts otherwise is only written to
    the console, with the instance left as it is, so that no promise is
    settled; a blank line has no effect at all. *)
Theorem C4_line_classification (h : Host) (line : jsstring) (b : Bridge) :
  (classify line = Protocol <->
     trim line <> [] /\ head (trim line) = Some 123%N) /\
  (trim line <> [] -> head (trim line) = Some 123%N ->
     (forall response,
        JSON_parse h (trim line) = Some response ->
        handleLine h line b
        = match resolveRequest response b with
          | Normal r => r
          | Throw _ =>
              (b, [ConsoleError [lit "[OmniAgentPay] Invalid JSON from sidecar:";
                                 trim line]])
          end) /\
     (forall response z request,
        JSON_parse h (trim line) = Some response ->
        get (lit "id") response = Some (JNum z) ->
        (Z.abs z <= 2 ^ 53)%Z ->
        pendingRequests b !! z = Some request ->
        truthy (get (lit "error") response) = false ->
        handleLine h line b
        = (set_pendingRequests (delete z (pendingRequests b)) b,
           [Resolve request (get (lit "result") response)])) /\
     (JSON_parse h (trim line) = None ->
        handleLine h line b
        = (b, [ConsoleError [lit "[OmniAgentPay] Invalid JSON from sidecar:";
                             trim line]]))) /\
  (trim line <> [] -> head (trim line) <> Some 123%N ->
     handleLine h line b
     = (b, [ConsoleError [lit "[OmniAgentPay Sidecar Log] " ++ trim line]])) /\
  (trim line = [] -> handleLine h line b = (b, [])) /\
  (classify line <> Protocol ->
     fst (handleLine h line b) = b /\
     List.filter is_settlement (snd (handleLine h line b)) = []).
Proof.
  split; [apply classify_Protocol|]. split; [|split; [|split]].
  - intros Hne Hhd.
    assert (Hc : classify line = Protocol) by (apply classify_Protocol; auto).
    assert (Hparsed : forall response,
              JSON_parse h (trim line) = Some response ->
              handleLine h line b
              = match resolveRequest response b with
                | Normal r => r
                | Throw _ => (b, [invalid_json (trim line)])
                end).
    { intros response Hp. unfold handleLine, dispatch. rewrite Hc, Hp.
      reflexivity. }
    split; [exact Hparsed|]. split.
    + intros response z request Hp Hid Hz Hget Herr.
      rewrite (Hparsed _ Hp).
      assert (Hnn : response <> JNull) by (intros ->; discriminate).
      rewrite (resolveRequest_eq _ _ Hnn).
      unfold pending_get, pending_delete.
      rewrite Hid, (key_of_exact _ Hz), Hget, Herr. reflexivity.
    + intros Hp. unfold handleLine, dispatch. rewrite Hc, Hp. reflexivity.
  - intros Hne Hhd. unfold handleLine, classify.
    destruct (trim line) as [|c s] eqn:Ht; [congruence|].
    cbn [truthy_string negb].
    destruct (startsWith (c :: s) (lit "{")) eqn:Hs; [|reflexivity].
    apply startsWith_brace in Hs. congruence.
  - intros Ht. unfold handleLine, classify. rewrite Ht. reflexivity.
  - intros Hc. unfold handleLine.
    destruct (classify line); [split; reflexivity .. | congruence].
Qed.

Lemma C4_line_classification_witness :
  (trim (lit "  " ++ reply_truncated ++ lit " ") <> [] /\
   head (trim (lit "  " ++ reply_truncated ++ lit " ")) = Some 123%N /\
   JSON_parse host_installed (trim (lit "  " ++ reply_truncated ++ lit " ")) = None /\
   handleLine host_installed (lit "  " ++ reply_truncated ++ lit " ") one_pending
   = (one_pending,
      [ConsoleError [lit "[OmniAgentPay] Invalid JSON from sidecar:";
                     reply_truncated]])) /\
  (trim (lit " log: starting up") <> [] /\
   head (trim (lit " log: starting up")) <> Some 123%N /\
   handleLine host_installed (lit " log: starting up") one_pending
   = (one_pending,
      [ConsoleError [lit "[OmniAgentPay Sidecar Log] log: starting up"]])) /\
  (trim (lit " " ++ reply_result) <> [] /\
   head (trim (lit " " ++ reply_result)) = Some 123%N /\
   JSON_parse host_installed (trim (lit " " ++ reply_result))
   = Some reply_result_value /\
   handleLine host_installed (lit " " ++ reply_result) one_pending
   = (set_pendingRequests (delete 1%Z (pendingRequests one_pending)) one_pending,
      [Resolve 7%nat (Some (JBool true))])).
Proof.
  pose proof (C4_line_classification host_installed
                (lit "  " ++ reply_truncated ++ lit " ") one_pending)
    as (_ & Hproto & _).
  pose proof (C4_line_classification host_installed
                (lit " log: starting up") one_pending)
    as (_ & _ & Hdiag & _).
  pose proof (C4_line_classification host_installed
                (lit " " ++ reply_result) one_pending)
    as (_ & Hreply & _).
  assert (H1 : trim (lit "  " ++ reply_truncated ++ lit " ") <> [])
    by (vm_compute; discriminate).
  assert (H2 : head (trim (lit "  " ++ reply_truncated ++ lit " ")) = Some 123%N)
    by reflexivity.
  assert (H3 : JSON_parse host_installed
                 (trim (lit "  " ++ reply_truncated ++ lit " ")) = None)
    by reflexivity.
  assert (H4 : trim (lit " log: starting up") <> [])
    by (vm_compute; discriminate).
  assert (H5 : head (trim (lit " log: starting up")) <> Some 123%N)
    by (vm_compute; discriminate).
  assert (H6 : trim (lit " " ++ reply_result) <> [])
    by (vm_compute; discriminate).
  assert (H7 : head (trim (lit " " ++ reply_result)) = Some 123%N)
    by reflexivity.
  assert (H8 : JSON_parse host_installed (trim (lit " " ++ reply_result))
               = Some reply_result_value) by reflexivity.
  split; [|split].
  - split; [exact H1|]. split; [exact H2|]. split; [exact H3|].
    exact (proj2 (proj2 (Hproto H1 H2)) H3).
  - split; [exact H4|]. split; [exact H5|]. exact (Hdiag H4 H5).
  - split; [exact H6|]. split; [exact H7|]. split; [exact H8|].
    apply (proj1 (proj2 (Hreply H6 H7)) reply_result_value 1%Z 7%nat H8);
      [reflexivity | vm_compute; discriminate | reflexivity | reflexivity].
Defined.

End Classification.

(* ===================================================================== *)
(** ** Correlation of responses *)
(* ===================================================================== *)

Section Correlation.

Import Examples.
Local Open Scope Z_scope.


Lemma pending_get_delete (id : value) (m : gmap Z promise) (request : promise) :
  pending_get id m = Some request ->
  pending_get id (pending_delete id m) = None /\
  (forall k, key_of id <> Some k -> pending_delete id m !! k = m !! k).
Proof.
  unfold pending_get, pending_delete.
  destruct (key_of id) as [k0|]; [|discriminate]. intros _. split.
  - apply lookup_delete_eq.
  - intros k Hk. apply lookup_delete_ne. congruence.
Qed.

Lemma pending_get_not_null (response : json) (m : gmap Z promise)
    (request : promise) :
  pending_get (get (lit "id") response) m = Some request -> response <> JNull.
Proof. intros H ->. discriminate. Qed.

(** C5, as the code has it. A protocol line parses to a response whose id
    is the number of a pending entry. When the [error] field is truthy and
    its message has a text, the promise of the entry is rejected with
    [new Error(error.message)], an Error made from the message alone, and
    the entry is removed. When the [error] field is truthy and its message
    has no text (an object with a member named [toString]), the making of
    the Error throws inside the [try]: the line is logged as invalid JSON,
    nothing is settled and the entry stays. When the [error] field is
    absent or falsy, the promise is resolved with the [result] field and the
    entry is removed. No other entry changes, and nothing else of the
    instance does. An id of at most 2^53 in magnitude is its own key. *)
Theorem C5_matching_response_settles
    (h : Host) (line : jsstring) (response : json) (b : Bridge)
    (z k : Z) (request : promise) :
  classify line = Protocol ->
  JSON_parse h (trim line) = Some response ->
  get (lit "id") response = Some (JNum z) ->
  round_double z = Some k ->
  pendingRequests b !! k = Some request ->
  (truthy (get (lit "error") response) = true ->
   message_throws (get (lit "error") response ≫= get (lit "message")) = false ->
     handleLine h line b
     = (set_pendingRequests (delete k (pendingRequests b)) b,
        [Reject request
           (ErrorOf (get (lit "error") response ≫= get (lit "message")))])) /\
  (truthy (get (lit "error") response) = true ->
   message_throws (get (lit "error") response ≫= get (lit "message")) = true ->
     handleLine h line b
     = (b, [ConsoleError [lit "[OmniAgentPay] Invalid JSON from sidecar:";
                          trim line]])) /\
  (truthy (get (lit "error") response) = false ->
     handleLine h line b
     = (set_pendingRequests (delete k (pendingRequests b)) b,
        [Resolve request (get (lit "result") response)])) /\
  delete k (pendingRequests b) !! k = None /\
  (forall k', k' <> k ->
     delete k (pendingRequests b) !! k' = pendingRequests b !! k') /\
  (Z.abs z <= 2 ^ 53 -> k = z).
Proof.
  intros Hc Hparse Hid Hk Hget.
  assert (Hnn : response <> JNull) by (intros ->; discriminate).
  assert (Hl : handleLine h line b
               = match resolveRequest response b with
                 | Normal r => r
                 | Throw _ => (b, [invalid_json (trim line)])
                 end).
  { unfold handleLine, dispatch. rewrite Hc, Hparse. reflexivity. }
  rewrite (resolveRequest_eq _ _ Hnn) in Hl.
  unfold pending_get, pending_delete, key_of in Hl.
  rewrite Hid, Hk, Hget in Hl.
  split; [|split; [|split; [|split; [|split]]]].
  - intros He Hm. rewrite Hl, He, Hm. reflexivity.
  - intros He Hm. rewrite Hl, He, Hm. reflexivity.
  - intros He. rewrite Hl, He. reflexivity.
  - apply lookup_delete_eq.
  - intros k' Hne. apply lookup_delete_ne. congruence.
  - intros Hz. unfold round_double in Hk.
    apply Z.leb_le in Hz. rewrite Hz in Hk. congruence.
Qed.

Lemma C5_matching_response_settles_witness :
  handleLine host_installed reply_error one_pending
  = (set_pendingRequests (delete 1 (pendingRequests one_pending)) one_pending,
     [Reject 7%nat (ErrorOf (Some (JStr (lit "boom"))))]) /\
  handleLine host_installed reply_error_unprintable one_pending
  = (one_pending,
     [ConsoleError [lit "[OmniAgentPay] Invalid JSON from sidecar:";
                    reply_error_unprintable]]) /\
  handleLine host_installed reply_result one_pending
  = (set_pendingRequests (delete 1 (pendingRequests one_pending)) one_pending,
     [Resolve 7%nat (Some (JBool true))]).
Proof.
  split; [|split].
  - exact (proj1 (C5_matching_response_settles host_installed reply_error
                    reply_error_value one_pending 1 1 7%nat
                    eq_refl eq_refl eq_refl eq_refl eq_refl) eq_refl eq_refl).
  - exact (proj1 (proj2 (C5_matching_response_settles host_installed
                           reply_error_unprintable reply_error_unprintable_value
                           one_pending 1 1 7%nat
                           eq_refl eq_refl eq_refl eq_refl eq_refl))
             eq_refl eq_refl).
  - exact (proj1 (proj2 (proj2 (C5_matching_response_settles host_installed
                                  reply_result reply_result_value
                                  one_pending 1 1 7%nat
                                  eq_refl eq_refl eq_refl eq_refl eq_refl)))
             eq_refl).
Defined.

(** C5 fails as stated: two responses whose error objects have the same
    message but differ in code and data reject the caller with the same
    value, an Error that holds the message only. *)
Lemma C5_rejection_drops_code_and_data :
  get (lit "error") reply_error_value <> get (lit "error") reply_error_other_value /\
  resolveRequest reply_error_value one_pending
  = resolveRequest reply_error_other_value one_pending /\
  snd (handleData host_installed (reply_error ++ [10%N]) one_pending)
  = [Reject 7%nat (ErrorOf (Some (JStr (lit "boom"))))].
Proof.
  split; [|split].
  - vm_compute. discriminate.
  - reflexivity.
  - reflexivity.
Qed.

(** C7. A response that parses to an object whose id finds no pending
    entry is dropped: [resolveRequest] returns normally, the instance is
    left as it is and nothing happens outside it. This is what a second
    copy of a response meets, its entry having been removed by the first. *)
Theorem C7_unmatched_response_dropped
    (h : Host) (t : jsstring) (props : list (jsstring * json)) (b : Bridge) :
  JSON_parse h t = Some (JObj props) ->
  (pending_get (get (lit "id") (JObj props)) (pendingRequests b) = None ->
     resolveRequest (JObj props) b = Normal (b, []) /\
     dispatch h t b = (b, [])) /\
  (forall b' evs,
     resolveRequest (JObj props) b = Normal (b', evs) ->
     resolveRequest (JObj props) b' = Normal (b', []) /\
     dispatch h t b' = (b', [])).
Proof.
  intros Hparse.
  assert (Hdrop : forall b0,
            pending_get (get (lit "id") (JObj props)) (pendingRequests b0) = None ->
            resolveRequest (JObj props) b0 = Normal (b0, []) /\
            dispatch h t b0 = (b0, [])).
  { intros b0 Hget.
    assert (Hr : resolveRequest (JObj props) b0 = Normal (b0, [])).
    { rewrite resolveRequest_eq by discriminate. rewrite Hget. reflexivity. }
    split; [exact Hr|]. unfold dispatch. rewrite Hparse, Hr. reflexivity. }
  split; [apply Hdrop|].
  intros b' evs Hr. apply Hdrop.
  rewrite resolveRequest_eq in Hr by discriminate.
  destruct (pending_get (get (lit "id") (JObj props)) (pendingRequests b))
    as [request|] eqn:Hget;
    [destruct (truthy _); [destruct (message_throws _)|]|];
    inversion Hr; subst; try apply (pending_get_delete _ _ _ Hget).
  exact Hget.
Qed.

Lemma C7_unmatched_response_dropped_witness :
  JSON_parse host_installed reply_unknown = Some reply_unknown_value /\
  pending_get (get (lit "id") reply_unknown_value) (pendingRequests one_pending)
  = None /\
  dispatch host_installed reply_unknown one_pending = (one_pending, []).
Proof.
  assert (Hp : JSON_parse host_installed reply_unknown = Some reply_unknown_value)
    by reflexivity.
  assert (Hg : pending_get (get (lit "id") reply_unknown_value)
                 (pendingRequests one_pending) = None) by reflexivity.
  split; [exact Hp|]. split; [exact Hg|].
  exact (proj2 (proj1 (C7_unmatched_response_dropped host_installed reply_unknown
                         _ one_pending Hp) Hg)).
Defined.

(** C10. The fields of a response are not checked against each other: when
    the id finds a pending entry and the [error] field is absent or falsy,
    the promise is resolved with whatever the [result] field is, with
    [undefined] when the response has no [result] either. *)
Theorem C10_result_taken_as_it_is
    (h : Host) (line : jsstring) (response : json) (b : Bridge)
    (request : promise) :
  classify line = Protocol ->
  JSON_parse h (trim line) = Some response ->
  pending_get (get (lit "id") response) (pendingRequests b) = Some request ->
  truthy (get (lit "error") response) = false ->
  handleLine h line b
  = (set_pendingRequests
       (pending_delete (get (lit "id") response) (pendingRequests b)) b,
     [Resolve request (get (lit "result") response)]) /\
  (get (lit "result") response = None ->
     snd (handleLine h line b) = [Resolve request None]).
Proof.
  intros Hc Hparse Hget Herr.
  assert (Hl : handleLine h line b
               = (set_pendingRequests
                    (pending_delete (get (lit "id") response) (pendingRequests b)) b,
                  [Resolve request (get (lit "result") response)])).
  { unfold handleLine, dispatch. rewrite Hc, Hparse.
    rewrite (resolveRequest_eq _ _ (pending_get_not_null _ _ _ Hget)).
    rewrite Hget, Herr. reflexivity. }
  split; [exact Hl|]. intros Hres. rewrite Hl, Hres. reflexivity.
Qed.

Lemma C10_result_taken_as_it_is_witness :
  classify reply_bare = Protocol /\
  JSON_parse host_installed (trim reply_bare) = Some reply_bare_value /\
  pending_get (get (lit "id") reply_bare_value) (pendingRequests one_pending)
  = Some 7%nat /\
  truthy (get (lit "error") reply_bare_value) = false /\
  get (lit "result") reply_bare_value = None /\
  snd (handleLine host_installed reply_bare one_pending) = [Resolve 7%nat None].
Proof.
  assert (H1 : classify reply_bare = Protocol) by reflexivity.
  assert (H2 : JSON_parse host_installed (trim reply_bare) = Some reply_bare_value)
    by reflexivity.
  assert (H3 : pending_get (get (lit "id") reply_bare_value)
                 (pendingRequests one_pending) = Some 7%nat) by reflexivity.
  assert (H4 : truthy (get (lit "error") reply_bare_value) = false)
    by reflexivity.
  assert (H5 : get (lit "result") reply_bare_value = None) by reflexivity.
  repeat (split; [assumption|]).
  exact (proj2 (C10_result_taken_as_it_is host_installed reply_bare
                  reply_bare_value one_pending 7%nat H1 H2 H3 H4) H5).
Defined.

End Correlation.

(* ===================================================================== *)
(** ** Launching the worker *)
(* ===================================================================== *)

Section Launch.

Import Examples.
Local Open Scope Z_scope.

(** C6, as the code has it. [start()] does not look at the worker already
    attached: every call that finds a path spawns a process from it and
    replaces the handle (the test for an attached worker is made by
    [send()], which calls [start()] only when there is none). The path is
    the one supplied to the constructor when it is a non-empty string, taken
    without a look at the file system; otherwise the development build path
    if it exists; otherwise the installed package path if it exists;
    otherwise [start()] throws an error that names both candidate paths.
    The error is thrown before anything is spawned, and inside [send()]
    before an id is allocated or an entry registered: the instance is left
    as it is. *)
Theorem C6_start_resolves_path_and_spawns (h : Host) (b : Bridge) :
  (forall path, binaryPath b = Some path -> path <> [] ->
     getBinaryPath h b = Normal path) /\
  (binaryPath b = None \/ binaryPath b = Some [] ->
     (existsSync h (devPath h) = true -> getBinaryPath h b = Normal (devPath h)) /\
     (existsSync h (devPath h) = false -> existsSync h (prodPath h) = true ->
        getBinaryPath h b = Normal (prodPath h)) /\
     (existsSync h (devPath h) = false -> existsSync h (prodPath h) = false ->
        getBinaryPath h b = Throw (launch_error h) /\
        start h b = Throw (launch_error h) /\
        step h CallStart b = (b, [Failed (launch_error h)]) /\
        (forall p method params, child b = None ->
           send h p method params b = Throw (launch_error h) /\
           step h (CallSend p method params) b = (b, [Failed (launch_error h)])))) /\
  (forall path, getBinaryPath h b = Normal path ->
     start h b
     = Normal (set_child (Some (Spawned path)) b,
               [ConsoleLog [lit "[OmniAgentPay] Spawning sidecar: " ++ path];
                Spawn path])) /\
  (forall c p method params, child b = Some c ->
     exists b' evs, send h p method params b = Normal (b', evs) /\
                    spawns evs = [] /\ child b' = Some c).
Proof.
  split; [|split; [|split]].
  - intros path Hbp Hne. unfold getBinaryPath. rewrite Hbp. simpl.
    destruct path; [congruence | reflexivity].
  - intros Hbp.
    assert (Hfalsy : truthy_path (binaryPath b) = false)
      by (destruct Hbp as [-> | ->]; reflexivity).
    unfold getBinaryPath. rewrite Hfalsy. split; [|split].
    + intros ->. reflexivity.
    + intros -> ->. reflexivity.
    + intros Hdev Hprod.
      assert (Hg : getBinaryPath h b = Throw (launch_error h)).
      { unfold getBinaryPath. rewrite Hfalsy, Hdev, Hprod. reflexivity. }
      assert (Hs : start h b = Throw (launch_error h))
        by (unfold start; rewrite Hg; reflexivity).
      rewrite Hdev, Hprod. split; [reflexivity|]. split; [exact Hs|].
      split; [simpl; rewrite Hs; reflexivity|].
      intros p method params Hc.
      pose proof (send_launch_failure h p method params b _ Hc Hg) as Hsend.
      split; [exact Hsend|]. simpl. rewrite Hsend. reflexivity.
  - intros path Hg. unfold start. rewrite Hg. reflexivity.
  - intros c p method params Hc. eexists _, _.
    rewrite (send_attached h _ _ _ _ _ Hc). split; [reflexivity|].
    split; [reflexivity | exact Hc].
Qed.

Lemma C6_start_resolves_path_and_spawns_witness :
  (binaryPath (new_bridge None) = None \/ binaryPath (new_bridge None) = Some []) /\
  existsSync host_installed (devPath host_installed) = false /\
  existsSync host_installed (prodPath host_installed) = true /\
  getBinaryPath host_installed (new_bridge None) = Normal prod_path /\
  existsSync host_bare (devPath host_bare) = false /\
  existsSync host_bare (prodPath host_bare) = false /\
  step host_bare (CallSend 7%nat (lit "health") None) (new_bridge None)
  = (new_bridge None, [Failed (launch_error host_bare)]).
Proof.
  assert (Hbp : binaryPath (new_bridge None) = None \/
                binaryPath (new_bridge None) = Some []) by (left; reflexivity).
  assert (H1 : existsSync host_installed (devPath host_installed) = false)
    by reflexivity.
  assert (H2 : existsSync host_installed (prodPath host_installed) = true)
    by reflexivity.
  assert (H3 : existsSync host_bare (devPath host_bare) = false) by reflexivity.
  assert (H4 : existsSync host_bare (prodPath host_bare) = false) by reflexivity.
  split; [exact Hbp|]. split; [exact H1|]. split; [exact H2|].
  split.
  - exact (proj1 (proj2 (proj1 (proj2
             (C6_start_resolves_path_and_spawns host_installed (new_bridge None)))
             Hbp)) H1 H2).
  - split; [exact H3|]. split; [exact H4|].
    pose proof (proj2 (proj2 (proj1 (proj2
                  (C6_start_resolves_path_and_spawns host_bare (new_bridge None)))
                  Hbp)) H3 H4) as (_ & _ & _ & Hsend).
    exact (proj2 (Hsend 7%nat (lit "health") None eq_refl)).
Defined.

(** C6 fails as stated: a second [start()] on a running instance spawns a
    second worker; and with an explicit path, [start()] on a host where no
    candidate exists spawns from that path instead of failing. *)
Lemma C6_start_twice_spawns_twice :
  spawns (snd (run [(host_installed, CallStart); (host_installed, CallStart)]
                   (new_bridge None)))
  = [prod_path; prod_path] /\
  is_Some (child (fst (run [(host_installed, CallStart)] (new_bridge None)))) /\
  step host_installed CallStart
    (fst (run [(host_installed, CallStart)] (new_bridge None)))
  <> (fst (run [(host_installed, CallStart)] (new_bridge None)), []) /\
  existsSync host_bare (lit "/nowhere/server") = false /\
  start host_bare (new_bridge (Some (lit "/nowhere/server")))
  = Normal (set_child (Some (Spawned (lit "/nowhere/server")))
              (new_bridge (Some (lit "/nowhere/server"))),
            [ConsoleLog [lit "[OmniAgentPay] Spawning sidecar: /nowhere/server"];
             Spawn (lit "/nowhere/server")]).
Proof.
  split; [reflexivity|]. split; [vm_compute; eauto|].
  split; [vm_compute; discriminate|]. split; reflexivity.
Qed.

End Launch.

(* ===================================================================== *)
(** ** Correlation ids along the life of an instance *)
(* ===================================================================== *)

Section Ids.

Import Examples.
Local Open Scope Z_scope.

Lemma new_bridge_registry_ok (bp : option jsstring) : registry_ok (new_bridge bp).
Proof.
  split; [simpl; lia|]. intros k [q Hq]. simpl in Hq.
  rewrite lookup_empty in Hq. discriminate.
Qed.

Lemma count_up_sorted (s n : nat) :
  StronglySorted Z.lt (map Z.of_nat (seq s n)).
Proof.
  revert s. induction n as [|n IH]; intros s; simpl; constructor.
  - apply IH.
  - apply List.Forall_forall. intros y Hy. apply List.in_map_iff in Hy.
    destruct Hy as (i & <- & Hi). apply List.in_seq in Hi. lia.
Qed.

Lemma count_up_NoDup (s n : nat) : NoDup (map Z.of_nat (seq s n)).
Proof.
  revert s. induction n as [|n IH]; intros s; simpl; constructor.
  - intros Hin. apply list_elem_of_In, List.in_map_iff in Hin.
    destruct Hin as (i & Hi & Hseq). apply List.in_seq in Hseq. lia.
  - apply IH.
Qed.

Lemma count_up_bound (n : nat) :
  Forall (fun i => i < Z.of_nat n + 1) (map Z.of_nat (seq 1 n)).
Proof.
  apply List.Forall_forall. intros y Hy. apply List.in_map_iff in Hy.
  destruct Hy as (i & <- & Hi). apply List.in_seq in Hi. lia.
Qed.

(** The state after a history from a fresh instance. *)
Lemma history_state (tr : list (Host * action)) (bp : option jsstring) :
  Z.of_nat (length tr) < 2 ^ 53 ->
  sent_ids tr (new_bridge bp)
  = map Z.of_nat (seq 1 (length (sent_ids tr (new_bridge bp)))) /\
  registry_ok (fst (run tr (new_bridge bp))) /\
  requestId (fst (run tr (new_bridge bp)))
  = Z.of_nat (length (sent_ids tr (new_bridge bp))) /\
  requestId (fst (run tr (new_bridge bp))) < 2 ^ 53.
Proof.
  intros Hlen.
  assert (Hlt : requestId (new_bridge bp) + Z.of_nat (length tr) < 2 ^ 53)
    by (simpl; lia).
  destruct (run_invariants tr (new_bridge bp) Hlt (new_bridge_registry_ok bp))
    as (Hok & Hr & Hl).
  split; [|split; [exact Hok|]].
  - rewrite (sent_ids_from tr (new_bridge bp) Hlt) at 1.
    apply map_ext. intros i. simpl. lia.
  - simpl in Hr. split; [lia|]. rewrite Hr. lia.
Qed.

(** C8. Along any history of an instance (any interleaving of [start],
    [send], [stop], output of the worker and exits of the worker, fewer than
    2^53 of them, the range in which the counter, a double, is exact), the
    ids allocated by the calls of [send] are 1, 2, 3, ... in order: they
    start at 1, increase strictly and never repeat. Every pending id has
    been allocated, and the id of the next [send] is above all of them and
    not in the pending map, so an entry is never replaced: there is at most
    one outstanding entry per id. *)
Theorem C8_ids_count_up_from_one
    (tr : list (Host * action)) (bp : option jsstring) :
  Z.of_nat (length tr) < 2 ^ 53 ->
  let ids := sent_ids tr (new_bridge bp) in
  let b := fst (run tr (new_bridge bp)) in
  ids = map Z.of_nat (seq 1 (length ids)) /\
  StronglySorted Z.lt ids /\
  NoDup ids /\
  (forall k, is_Some (pendingRequests b !! k) -> k ∈ ids) /\
  (forall h p method params b' evs,
     send h p method params b = Normal (b', evs) ->
     requestId b' = Z.of_nat (length ids) + 1 /\
     Forall (fun i => i < requestId b') ids /\
     pendingRequests b !! requestId b' = None /\
     pendingRequests b' = <[requestId b' := p]> (pendingRequests b)).
Proof.
  intros Hlen ids b.
  destruct (history_state tr bp Hlen) as (Hids & [H0 Hkeys] & Hr & Hlt).
  fold ids in Hids, Hr. fold b in H0, Hkeys, Hr, Hlt.
  split; [exact Hids|]. split; [|split; [|split]].
  - rewrite Hids. apply count_up_sorted.
  - rewrite Hids. apply count_up_NoDup.
  - intros k Hk. specialize (Hkeys k Hk). rewrite Hids.
    apply list_elem_of_In, List.in_map_iff. exists (Z.to_nat k).
    split; [lia|]. apply List.in_seq. lia.
  - intros h p method params b' evs Hsend.
    destruct (send_cases h p method params b)
      as [(e & _ & _ & Hthrow)|(b1 & evs1 & Hnormal & _)]; [congruence|].
    rewrite Hnormal in Hsend. inversion Hsend; subst b' evs.
    cbn [requestId pendingRequests set_pendingRequests set_requestId].
    rewrite (js_incr_exact _ Hlt), Hr.
    split; [reflexivity|]. split; [|split; [|reflexivity]].
    + pose proof (count_up_bound (length ids)) as Hbound.
      rewrite <- Hids in Hbound. exact Hbound.
    + destruct (pendingRequests b !! (Z.of_nat (length ids) + 1)) as [q|] eqn:Hq;
        [|reflexivity].
      assert (Hsome : is_Some (pendingRequests b !! (Z.of_nat (length ids) + 1)))
        by (rewrite Hq; eauto).
      specialize (Hkeys _ Hsome). lia.
Qed.

Lemma C8_ids_count_up_from_one_witness :
  Z.of_nat (length [(host_installed, CallSend 7%nat (lit "health") None);
                    (host_installed, ChildExit (Some 1));
                    (host_installed, CallSend 8%nat (lit "pay") None);
                    (host_installed, CallSend 9%nat (lit "pay") None)]) < 2 ^ 53 /\
  sent_ids [(host_installed, CallSend 7%nat (lit "health") None);
            (host_installed, ChildExit (Some 1));
            (host_installed, CallSend 8%nat (lit "pay") None);
            (host_installed, CallSend 9%nat (lit "pay") None)] (new_bridge None)
  = [1; 2; 3] /\
  NoDup (sent_ids [(host_installed, CallSend 7%nat (lit "health") None);
                   (host_installed, ChildExit (Some 1));
                   (host_installed, CallSend 8%nat (lit "pay") None);
                   (host_installed, CallSend 9%nat (lit "pay") None)]
                  (new_bridge None)).
Proof.
  assert (Hlen : Z.of_nat (length [(host_installed, CallSend 7%nat (lit "health") None);
                    (host_installed, ChildExit (Some 1));
                    (host_installed, CallSend 8%nat (lit "pay") None);
                    (host_installed, CallSend 9%nat (lit "pay") None)]) < 2 ^ 53)
    by (simpl; lia).
  split; [exact Hlen|]. split; [reflexivity|].
  exact (proj1 (proj2 (proj2 (C8_ids_count_up_from_one _ None Hlen)))).
Defined.

(** C9. After any history of an instance, [send()] with no worker attached
    (never started, worker exited, or stopped) and a path that resolves
    spawns a worker from that path, and neither the counter nor the pending
    map is reset: the id is the number of ids allocated so far plus one, so
    it is not 1 when a request was sent before, and every entry that was
    pending is still in the map. The exit of the worker and [stop()] clear
    the handle and leave the counter and the map as they are. *)
Theorem C9_send_restarts_and_keeps_registry
    (tr : list (Host * action)) (bp : option jsstring)
    (h : Host) (p : promise) (method : jsstring) (params : value)
    (path : jsstring) :
  Z.of_nat (length tr) < 2 ^ 53 ->
  let b := fst (run tr (new_bridge bp)) in
  child b = None ->
  getBinaryPath h b = Normal path ->
  (exists b' evs,
     send h p method params b = Normal (b', evs) /\
     spawns evs = [path] /\
     child b' = Some (Spawned path) /\
     requestId b' = requestId b + 1 /\
     requestId b' = Z.of_nat (length (sent_ids tr (new_bridge bp))) + 1 /\
     pendingRequests b' !! requestId b' = Some p /\
     (forall k q, pendingRequests b !! k = Some q ->
                  pendingRequests b' !! k = Some q)) /\
  (forall code b0,
     child (fst (on_exit code b0)) = None /\
     requestId (fst (on_exit code b0)) = requestId b0 /\
     pendingRequests (fst (on_exit code b0)) = pendingRequests b0) /\
  (forall b0,
     child (fst (stop b0)) = None /\
     requestId (fst (stop b0)) = requestId b0 /\
     pendingRequests (fst (stop b0)) = pendingRequests b0).
Proof.
  intros Hlen b Hchild Hpath.
  destruct (history_state tr bp Hlen) as (_ & [H0 Hkeys] & Hr & Hlt).
  fold b in H0, Hkeys, Hr, Hlt.
  split; [|split; intros; repeat split].
  eexists _, _. rewrite (send_launch h _ _ _ _ _ Hchild Hpath).
  split; [reflexivity|].
  cbn [requestId pendingRequests child set_pendingRequests set_requestId set_child].
  rewrite (js_incr_exact _ Hlt).
  repeat split.
  - rewrite Hr. reflexivity.
  - apply lookup_insert_eq.
  - intros k q Hq. rewrite lookup_insert_ne; [exact Hq|].
    assert (Hsome : is_Some (pendingRequests b !! k)) by (rewrite Hq; eauto).
    specialize (Hkeys k Hsome). lia.
Qed.

Lemma C9_send_restarts_and_keeps_registry_witness :
  Z.of_nat (length [(host_installed, CallSend 7%nat (lit "health") None);
                    (host_installed, ChildExit (Some 1))]) < 2 ^ 53 /\
  child (fst (run [(host_installed, CallSend 7%nat (lit "health") None);
                   (host_installed, ChildExit (Some 1))] (new_bridge None)))
  = None /\
  getBinaryPath host_installed
    (fst (run [(host_installed, CallSend 7%nat (lit "health") None);
               (host_installed, ChildExit (Some 1))] (new_bridge None)))
  = Normal prod_path /\
  exists b' evs,
    send host_installed 8%nat (lit "pay") None
      (fst (run [(host_installed, CallSend 7%nat (lit "health") None);
                 (host_installed, ChildExit (Some 1))] (new_bridge None)))
    = Normal (b', evs) /\
    spawns evs = [prod_path] /\
    requestId b' = 2 /\
    pendingRequests b' !! 1 = Some 7%nat /\
    pendingRequests b' !! 2 = Some 8%nat.
Proof.
  assert (Hlen : Z.of_nat (length [(host_installed, CallSend 7%nat (lit "health") None);
                    (host_installed, ChildExit (Some 1))]) < 2 ^ 53)
    by (simpl; lia).
  assert (Hc : child (fst (run [(host_installed, CallSend 7%nat (lit "health") None);
                   (host_installed, ChildExit (Some 1))] (new_bridge None)))
               = None) by reflexivity.
  assert (Hp : getBinaryPath host_installed
                 (fst (run [(host_installed, CallSend 7%nat (lit "health") None);
                            (host_installed, ChildExit (Some 1))] (new_bridge None)))
               = Normal prod_path) by reflexivity.
  split; [exact Hlen|]. split; [exact Hc|]. split; [exact Hp|].
  destruct (proj1 (C9_send_restarts_and_keeps_registry _ None host_installed
                     8%nat (lit "pay") None prod_path Hlen Hc Hp))
    as (b' & evs & Hs & Hsp & _ & _ & Hid & Hnew & Hold).
  exists b', evs. split; [exact Hs|]. split; [exact Hsp|].
  split; [exact Hid|]. split.
  - apply Hold. reflexivity.
  - change 2 with (Z.of_nat (length (sent_ids
        [(host_installed, CallSend 7%nat (lit "health") None);
         (host_installed, ChildExit (Some 1))] (new_bridge None))) + 1).
    rewrite <- Hid. exact Hnew.
Defined.

End Ids.

(* ===================================================================== *)
(** ** More on the frame decoder *)
(* ===================================================================== *)

Section Frames.

Import Examples.

(** X1. Framing round trip. When the worker writes lines, each followed by
    a line terminator, and then the beginning of a further line, one call of
    [handleData] processes exactly these lines, in order, the first one
    completed by what the buffer held, and keeps the beginning of the
    further line as the new buffer. *)
Theorem X1_frames_round_trip
    (h : Host) (b : Bridge) (l : jsstring) (ls : list jsstring) (rest : jsstring) :
  buffer_ok b -> Forall no_nl (l :: ls) -> no_nl rest ->
  take_lines (buffer b) (concat (map (fun l => l ++ [10%N]) (l :: ls)) ++ rest)
  = ((buffer b ++ l) :: ls, rest) /\
  handleData h (concat (map (fun l => l ++ [10%N]) (l :: ls)) ++ rest) b
  = handleLines h ((buffer b ++ l) :: ls) (set_buffer rest b).
Proof.
  intros Hb Hlines Hrest.
  assert (Ht : take_lines (buffer b)
                 (concat (map (fun l => l ++ [10%N]) (l :: ls)) ++ rest)
               = ((buffer b ++ l) :: ls, rest)).
  { rewrite take_lines_eq.
    change (concat (map (fun l => l ++ [10%N]) (l :: ls)))
      with ((l ++ [10%N]) ++ concat (map (fun l => l ++ [10%N]) ls)).
    replace (buffer b ++ ((l ++ [10%N]) ++ concat (map (fun l => l ++ [10%N]) ls))
             ++ rest)
      with (concat (map (fun l => l ++ [10%N]) ((buffer b ++ l) :: ls)) ++ rest)
      by (simpl; rewrite <- !app_assoc; reflexivity).
    inversion Hlines as [|? ? Hl Hls]; subst.
    rewrite split_frames;
      [|constructor; [apply no_nl_app; assumption | exact Hls] | exact Hrest].
    change ((buffer b ++ l) :: ls ++ [rest]) with (((buffer b ++ l) :: ls) ++ [rest]).
    rewrite removelast_last, last_snoc. reflexivity. }
  split; [exact Ht|]. unfold handleData. rewrite Ht. reflexivity.
Qed.

Lemma X1_frames_round_trip_witness :
  buffer_ok (fst (handleData host_installed (lit "log: st") one_pending)) /\
  Forall no_nl [lit "arting up"; reply_result] /\
  no_nl (lit "{'js") /\
  handleData host_installed
    (concat (map (fun l => l ++ [10%N]) [lit "arting up"; reply_result])
     ++ lit "{'js")
    (fst (handleData host_installed (lit "log: st") one_pending))
  = handleLines host_installed [lit "log: starting up"; reply_result]
      (set_buffer (lit "{'js") one_pending).
Proof.
  assert (H1 : buffer_ok (fst (handleData host_installed (lit "log: st") one_pending)))
    by (vm_compute; repeat constructor; discriminate).
  assert (H2 : Forall no_nl [lit "arting up"; reply_result])
    by (vm_compute; repeat constructor; discriminate).
  assert (H3 : no_nl (lit "{'js"))
    by (vm_compute; repeat constructor; discriminate).
  split; [exact H1|]. split; [exact H2|]. split; [exact H3|].
  exact (proj2 (X1_frames_round_trip host_installed _ _ _ _ H1 H2 H3)).
Defined.

(** X2. A chunk without line terminator is only buffered: it is appended
    to the buffer, no line is processed, nothing happens outside the
    instance and no other field changes. *)
Theorem X2_partial_line_is_buffered (h : Host) (b : Bridge) (chunk : jsstring) :
  buffer_ok b -> no_nl chunk ->
  handleData h chunk b = (set_buffer (buffer b ++ chunk) b, []).
Proof.
  intros Hb Hc. unfold handleData.
  rewrite take_lines_eq, split_no_sep by (apply no_nl_app; assumption).
  reflexivity.
Qed.

Lemma X2_partial_line_is_buffered_witness :
  buffer_ok one_pending /\ no_nl (lit "{'jsonrpc':") /\
  handleData host_installed (lit "{'jsonrpc':") one_pending
  = (set_buffer (lit "{'jsonrpc':") one_pending, []).
Proof.
  assert (H1 : buffer_ok one_pending) by constructor.
  assert (H2 : no_nl (lit "{'jsonrpc':"))
    by (vm_compute; repeat constructor; discriminate).
  split; [exact H1|]. split; [exact H2|].
  exact (X2_partial_line_is_buffered host_installed one_pending _ H1 H2).
Defined.

End Frames.

(* ===================================================================== *)
(** ** What the output of the worker can do *)
(* ===================================================================== *)

Section DataEffects.

Import Examples.

Variable h : Host.

Lemma settled_app (evs1 evs2 : list event) :
  settled (evs1 ++ evs2) = settled evs1 ++ settled evs2.
Proof.
  induction evs1 as [|e evs1 IH]; [reflexivity|].
  destruct e; simpl; rewrite ?IH; reflexivity.
Qed.

Lemma pending_delete_size (id : value) (m : gmap Z promise) (request : promise) :
  pending_get id m = Some request ->
  S (size (pending_delete id m)) = size m.
Proof.
  unfold pending_get, pending_delete.
  destruct (key_of id) as [z|]; [|discriminate]. intros Hz.
  rewrite map_size_delete, Hz. simpl.
  assert (size m <> 0%nat); [|lia].
  intros H0. apply map_size_empty_iff in H0. subst m.
  rewrite lookup_empty in Hz. discriminate.
Qed.

(** One response: a console-free step that settles as many promises as it
    removes entries. *)
Lemma resolveRequest_account (response : json) (b b' : Bridge) evs :
  resolveRequest response b = Normal (b', evs) ->
  Forall (fun e => is_report_or_settlement e = true) evs /\
  (length (settled evs) + size (pendingRequests b'))%nat
  = size (pendingRequests b).
Proof.
  destruct (json_null_or_not response) as [->|Hr]; [discriminate|].
  rewrite (resolveRequest_eq _ _ Hr).
  destruct (pending_get _ _) as [request|] eqn:Hget.
  - pose proof (pending_delete_size _ _ _ Hget) as Hs.
    destruct (truthy _); [destruct (message_throws _)|];
      intros H; inversion H; subst;
      cbn [pendingRequests set_pendingRequests];
      (split; [repeat constructor | simpl; lia]).
  - intros H; inversion H; subst. split; [constructor | reflexivity].
Qed.

Lemma handleLine_account (line : jsstring) (b : Bridge) :
  Forall (fun e => is_report_or_settlement e = true) (snd (handleLine h line b)) /\
  (length (settled (snd (handleLine h line b)))
   + size (pendingRequests (fst (handleLine h line b))))%nat
  = size (pendingRequests b).
Proof.
  unfold handleLine. destruct (classify line).
  - split; [constructor | reflexivity].
  - split; [repeat constructor | reflexivity].
  - unfold dispatch. destruct (JSON_parse h (trim line)) as [response|].
    + destruct (resolveRequest response b) as [[b' evs]|e] eqn:Hr.
      * apply (resolveRequest_account _ _ _ _ Hr).
      * split; [repeat constructor | reflexivity].
    + split; [repeat constructor | reflexivity].
Qed.

Lemma handleLines_account (lines : list jsstring) (b : Bridge) :
  Forall (fun e => is_report_or_settlement e = true) (snd (handleLines h lines b)) /\
  (length (settled (snd (handleLines h lines b)))
   + size (pendingRequests (fst (handleLines h lines b))))%nat
  = size (pendingRequests b).
Proof.
  revert b. induction lines as [|line lines IH]; intros b.
  - split; [constructor | reflexivity].
  - cbn [handleLines]. destruct (handleLine_account line b) as [Hev Hsz].
    destruct (handleLine h line b) as [b1 evs1]. cbn [fst snd] in *.
    destruct (IH b1) as [Hev2 Hsz2].
    destruct (handleLines h lines b1) as [b2 evs2]. cbn [fst snd] in *.
    split; [apply Forall_app; split; assumption|].
    rewrite settled_app, length_app. lia.
Qed.

(** X3. Output of the worker cannot drive the bridge: whatever the bytes,
    [handleData] only writes console errors and settles promises; it never
    spawns or kills a process, writes to the worker or emits an event, and
    it leaves the worker handle, the id counter and the configured path as
    they are, removing pending entries at most. *)
Theorem X3_worker_output_only_reports_and_settles
    (data : list byte) (b : Bridge) :
  Forall (fun e => is_report_or_settlement e = true)
         (snd (on_stdout_data h data b)) /\
  child (fst (on_stdout_data h data b)) = child b /\
  requestId (fst (on_stdout_data h data b)) = requestId b /\
  binaryPath (fst (on_stdout_data h data b)) = binaryPath b /\
  pendingRequests (fst (on_stdout_data h data b)) ⊆ pendingRequests b /\
  spawns (snd (on_stdout_data h data b)) = [] /\
  writes (snd (on_stdout_data h data b)) = [].
Proof.
  unfold on_stdout_data.
  pose proof (handleData_only_removes_but_buffer h (Utf8.toString data) b)
    as (Hbp & Hc & Hr & _ & Hsub).
  assert (Hev : Forall (fun e => is_report_or_settlement e = true)
                  (snd (handleData h (Utf8.toString data) b))).
  { rewrite handleData_eq. cbn [snd]. apply handleLines_account. }
  split; [exact Hev|]. repeat (split; [assumption|]).
  clear -Hev. induction Hev as [|e evs He Hevs [IH1 IH2]]; [split; reflexivity|].
  destruct e; try discriminate; simpl; split; assumption.
Qed.

(** X4. Every settlement takes one entry out of the pending map: after any
    output of the worker, the number of promises settled plus the number of
    entries left is the number of entries there were. *)
Theorem X4_one_settlement_per_removed_entry (data : list byte) (b : Bridge) :
  (length (settled (snd (on_stdout_data h data b)))
   + size (pendingRequests (fst (on_stdout_data h data b))))%nat
  = size (pendingRequests b).
Proof.
  unfold on_stdout_data. rewrite handleData_eq. cbn [fst snd].
  change (pendingRequests (set_buffer ?s ?x)) with (pendingRequests x).
  apply handleLines_account.
Qed.

End DataEffects.

(* ===================================================================== *)
(** ** Requests and their responses *)
(* ===================================================================== *)

Section RoundTrip.

Import Examples.
Local Open Scope Z_scope.

(** A call of [send] that goes through settles nothing and adds one entry
    to the pending map, for the id it allocates. *)
Lemma send_registers (h : Host) (p : promise) (method : jsstring)
    (params : value) (b b' : Bridge) evs :
  send h p method params b = Normal (b', evs) ->
  settled evs = [] /\ kills evs = [] /\
  requestId b' = js_incr (requestId b) /\
  pendingRequests b' = <[js_incr (requestId b) := p]> (pendingRequests b) /\
  buffer b' = buffer b /\ binaryPath b' = binaryPath b /\
  writes evs = [stringify (request_object method (default (JObj []) params)
                             (js_incr (requestId b))) ++ [10%N]].
Proof.
  intros Hs. destruct (child b) as [c|] eqn:Hc.
  - rewrite (send_attached h _ _ _ _ _ Hc) in Hs. inversion Hs; subst.
    repeat split.
  - destruct (getBinaryPath h b) as [path|e] eqn:Hp.
    + rewrite (send_launch h _ _ _ _ _ Hc Hp) in Hs. inversion Hs; subst.
      repeat split.
    + rewrite (send_launch_failure h _ _ _ _ _ Hc Hp) in Hs. discriminate.
Qed.

Lemma set_buffer_same (b : Bridge) : set_buffer (buffer b) b = b.
Proof. destruct b; reflexivity. Qed.

(** X5. Request and response round trip. After any history of an instance
    that leaves no partial line in the buffer, a call of [send] that goes
    through followed by a response line that carries the id just allocated
    and no error resolves the promise of the call with the [result] of the
    response, by this one settlement only, and puts the pending map back to
    what it was before the call. *)
Theorem X5_request_response_round_trip
    (tr : list (Host * action)) (bp : option jsstring)
    (hs h : Host) (p : promise) (method : jsstring) (params : value)
    (b' : Bridge) (evs : list event) (line : jsstring) (response : json) :
  Z.of_nat (length tr) < 2 ^ 53 ->
  buffer (fst (run tr (new_bridge bp))) = [] ->
  send hs p method params (fst (run tr (new_bridge bp))) = Normal (b', evs) ->
  no_nl line ->
  classify line = Protocol ->
  JSON_parse h (trim line) = Some response ->
  get (lit "id") response = Some (JNum (requestId b')) ->
  truthy (get (lit "error") response) = false ->
  handleData h (line ++ [10%N]) b'
  = (set_pendingRequests (pendingRequests (fst (run tr (new_bridge bp)))) b',
     [Resolve p (get (lit "result") response)]).
Proof.
  intros Hlen Hbuf Hsend Hline Hclass Hparse Hid Herr.
  destruct (history_state tr bp Hlen) as (_ & [H0 Hkeys] & Hr & Hlt).
  set (b := fst (run tr (new_bridge bp))) in *.
  destruct (send_registers _ _ _ _ _ _ _ Hsend)
    as (_ & _ & Hreq & Hpend & Hbuf' & _).
  assert (Hfresh : pendingRequests b !! js_incr (requestId b) = None).
  { destruct (pendingRequests b !! js_incr (requestId b)) as [q|] eqn:Hq;
      [|reflexivity].
    assert (Hsome : is_Some (pendingRequests b !! js_incr (requestId b)))
      by (rewrite Hq; eauto).
    specialize (Hkeys _ Hsome). rewrite (js_incr_exact _ Hlt) in Hkeys. lia. }
  assert (Hget : pending_get (get (lit "id") response) (pendingRequests b')
                 = Some p).
  { unfold pending_get. rewrite Hid, Hreq, Hpend, key_of_exact.
    - apply lookup_insert_eq.
    - rewrite (js_incr_exact _ Hlt). lia. }
  unfold handleData. rewrite Hbuf', Hbuf. rewrite take_lines_eq.
  change ([] ++ line ++ [10%N]) with (line ++ [10%N]).
  rewrite (split_one_line _ _ Hline). cbn [removelast last default].
  cbn [handleLines]. rewrite handleLine_set_buffer.
  unfold handleLine, dispatch. rewrite Hclass, Hparse.
  rewrite (resolveRequest_eq _ _ (pending_get_not_null _ _ _ Hget)).
  rewrite Hget, Herr. cbn [fst snd]. rewrite Hid. unfold pending_delete.
  rewrite Hreq, key_of_exact by (rewrite (js_incr_exact _ Hlt); lia).
  rewrite Hpend, (delete_insert_id _ _ _ Hfresh).
  f_equal. rewrite <- Hbuf, <- Hbuf'.
  destruct b'; reflexivity.
Qed.

Lemma X5_request_response_round_trip_witness :
  Z.of_nat (length (@nil (Host * action))) < 2 ^ 53 /\
  buffer (fst (run [] (new_bridge None))) = [] /\
  send host_installed 7%nat (lit "health") None (fst (run [] (new_bridge None)))
  = Normal (one_pending, snd (run [(host_installed, CallSend 7%nat (lit "health") None)]
                                  (new_bridge None))) /\
  no_nl reply_result /\
  classify reply_result = Protocol /\
  JSON_parse host_installed (trim reply_result) = Some reply_result_value /\
  get (lit "id") reply_result_value = Some (JNum (requestId one_pending)) /\
  truthy (get (lit "error") reply_result_value) = false /\
  handleData host_installed (reply_result ++ [10%N]) one_pending
  = (set_pendingRequests ∅ one_pending, [Resolve 7%nat (Some (JBool true))]).
Proof.
  assert (H1 : Z.of_nat (length (@nil (Host * action))) < 2 ^ 53) by (simpl; lia).
  assert (H2 : buffer (fst (run [] (new_bridge None))) = []) by reflexivity.
  assert (H3 : send host_installed 7%nat (lit "health") None
                 (fst (run [] (new_bridge None)))
               = Normal (one_pending,
                         snd (run [(host_installed, CallSend 7%nat (lit "health") None)]
                                  (new_bridge None)))) by reflexivity.
  assert (H4 : no_nl reply_result)
    by (vm_compute; repeat constructor; discriminate).
  assert (H5 : classify reply_result = Protocol) by reflexivity.
  assert (H6 : JSON_parse host_installed (trim reply_result)
               = Some reply_result_value) by reflexivity.
  assert (H7 : get (lit "id") reply_result_value
               = Some (JNum (requestId one_pending))) by reflexivity.
  assert (H8 : truthy (get (lit "error") reply_result_value) = false)
    by reflexivity.
  repeat (split; [assumption|]).
  exact (X5_request_response_round_trip [] None host_installed host_installed
           7%nat (lit "health") None _ _ reply_result reply_result_value
           H1 H2 H3 H4 H5 H6 H7 H8).
Defined.

Lemma pending_delete_commute (id1 id2 : value) (m : gmap Z promise) :
  pending_delete id1 (pending_delete id2 m)
  = pending_delete id2 (pending_delete id1 m).
Proof.
  unfold pending_delete. destruct (key_of id1), (key_of id2); try reflexivity.
  apply delete_delete.
Qed.

Lemma pending_get_delete_other (id1 id2 : value) (m : gmap Z promise) :
  (forall k, key_of id1 = Some k -> key_of id2 = Some k -> False) ->
  pending_get id1 (pending_delete id2 m) = pending_get id1 m.
Proof.
  intros Hne. unfold pending_get, pending_delete.
  destruct (key_of id1) as [k1|], (key_of id2) as [k2|]; try reflexivity.
  apply lookup_delete_ne. intros ->. exact (Hne k1 eq_refl eq_refl).
Qed.

Lemma pending_delete_absent (id : value) (m : gmap Z promise) :
  pending_get id m = None -> pending_delete id m = m.
Proof.
  unfold pending_get, pending_delete. destruct (key_of id); [|reflexivity].
  apply delete_id.
Qed.

Lemma set_pendingRequests_same (b : Bridge) :
  set_pendingRequests (pendingRequests b) b = b.
Proof. destruct b; reflexivity. Qed.

(** A response that is taken leaves the instance without the entry of its
    id, and otherwise as it was. *)
Lemma resolveRequest_state (response : json) (b b' : Bridge) evs :
  resolveRequest response b = Normal (b', evs) ->
  b' = set_pendingRequests
         (pending_delete (get (lit "id") response) (pendingRequests b)) b.
Proof.
  destruct (json_null_or_not response) as [->|Hr]; [discriminate|].
  rewrite (resolveRequest_eq _ _ Hr).
  destruct (pending_get _ _) eqn:Hget;
    [destruct (truthy _); [destruct (message_throws _)|]|];
    intros H; inversion H; subst; try reflexivity.
  rewrite (pending_delete_absent _ _ Hget), set_pendingRequests_same.
  reflexivity.
Qed.

(** A response meets the same entry, and so does the same, after the entry
    of another id has been removed. *)
Lemma resolveRequest_after_delete (response : json) (id2 : value) (b : Bridge) :
  (forall k, key_of (get (lit "id") response) = Some k ->
             key_of id2 = Some k -> False) ->
  resolveRequest response
    (set_pendingRequests (pending_delete id2 (pendingRequests b)) b)
  = match resolveRequest response b with
    | Normal (b', evs) =>
        Normal (set_pendingRequests (pending_delete id2 (pendingRequests b')) b',
                evs)
    | Throw e => Throw e
    end.
Proof.
  intros Hne. destruct (json_null_or_not response) as [->|Hr]; [reflexivity|].
  rewrite !(resolveRequest_eq _ _ Hr). cbn [pendingRequests set_pendingRequests].
  rewrite (pending_get_delete_other _ _ _ Hne).
  destruct (pending_get _ _);
    [destruct (truthy _); [destruct (message_throws _)|]|];
    cbn [pendingRequests set_pendingRequests];
    rewrite ?(pending_delete_commute id2); reflexivity.
Qed.

(** The same for a line: after a line that addresses another entry, or
    none, a line does what it does alone. *)
Lemma handleLine_after_line (h : Host) (line1 line2 : jsstring) (b : Bridge) :
  (forall r1 r2 k,
     JSON_parse h (trim line1) = Some r1 -> JSON_parse h (trim line2) = Some r2 ->
     key_of (get (lit "id") r1) = Some k -> key_of (get (lit "id") r2) = Some k ->
     False) ->
  handleLine h line1 (fst (handleLine h line2 b))
  = (fst (handleLine h line2 (fst (handleLine h line1 b))),
     snd (handleLine h line1 b)).
Proof.
  intros Hne. unfold handleLine.
  destruct (classify line1), (classify line2); cbn [fst snd]; try reflexivity;
    try (destruct (dispatch h _ b); reflexivity).
  unfold dispatch.
  destruct (JSON_parse h (trim line1)) as [r1|] eqn:Hp1,
           (JSON_parse h (trim line2)) as [r2|] eqn:Hp2; cbn [fst snd];
    try reflexivity;
    try (destruct (resolveRequest _ b) as [[b' evs]|e]; reflexivity).
  assert (Hne12 : forall k, key_of (get (lit "id") r1) = Some k ->
                            key_of (get (lit "id") r2) = Some k -> False)
    by (intros k; exact (Hne r1 r2 k eq_refl eq_refl)).
  assert (Hne21 : forall k, key_of (get (lit "id") r2) = Some k ->
                            key_of (get (lit "id") r1) = Some k -> False)
    by (intros k H2 H1; exact (Hne12 k H1 H2)).
  destruct (resolveRequest r2 b) as [[b2 evs2]|e2] eqn:H2;
    destruct (resolveRequest r1 b) as [[b1 evs1]|e1] eqn:H1; cbn [fst snd];
    rewrite ?H1, ?H2; cbn [fst snd]; try reflexivity.
  - rewrite (resolveRequest_state _ _ _ _ H2), (resolveRequest_state _ _ _ _ H1).
    rewrite (resolveRequest_after_delete _ _ _ Hne12), H1.
    rewrite (resolveRequest_after_delete _ _ _ Hne21), H2.
    cbn [fst snd].
    rewrite (resolveRequest_state _ _ _ _ H2), (resolveRequest_state _ _ _ _ H1).
    cbn [pendingRequests set_pendingRequests].
    rewrite pending_delete_commute. reflexivity.
  - rewrite (resolveRequest_state _ _ _ _ H2).
    rewrite (resolveRequest_after_delete _ _ _ Hne12), H1. reflexivity.
  - rewrite (resolveRequest_state _ _ _ _ H1).
    rewrite (resolveRequest_after_delete _ _ _ Hne21), H2. reflexivity.
Qed.

(** X6. Responses may arrive in any order. Of two lines of the worker that
    do not carry ids that are the same number as keys of the pending map,
    each has the effects it has alone whichever comes first - the same
    settlement in the same way, or the same report - and both orders leave
    the same instance. A line that makes [resolveRequest] throw included:
    it is reported and changes nothing in either order. *)
Theorem X6_responses_commute
    (h : Host) (line1 line2 : jsstring) (b : Bridge) :
  (forall r1 r2 k,
     JSON_parse h (trim line1) = Some r1 -> JSON_parse h (trim line2) = Some r2 ->
     key_of (get (lit "id") r1) = Some k -> key_of (get (lit "id") r2) = Some k ->
     False) ->
  snd (handleLine h line1 (fst (handleLine h line2 b)))
  = snd (handleLine h line1 b) /\
  snd (handleLine h line2 (fst (handleLine h line1 b)))
  = snd (handleLine h line2 b) /\
  fst (handleLines h [line1; line2] b) = fst (handleLines h [line2; line1] b) /\
  snd (handleLines h [line1; line2] b)
  = snd (handleLine h line1 b) ++ snd (handleLine h line2 b) /\
  snd (handleLines h [line2; line1] b)
  = snd (handleLine h line2 b) ++ snd (handleLine h line1 b).
Proof.
  intros Hne.
  assert (Hne' : forall r2 r1 k,
            JSON_parse h (trim line2) = Some r2 ->
            JSON_parse h (trim line1) = Some r1 ->
            key_of (get (lit "id") r2) = Some k ->
            key_of (get (lit "id") r1) = Some k -> False)
    by (intros r2 r1 k H2 H1 K2 K1; exact (Hne r1 r2 k H1 H2 K1 K2)).
  pose proof (handleLine_after_line h line1 line2 b Hne) as H12.
  pose proof (handleLine_after_line h line2 line1 b Hne') as H21.
  cbn [handleLines].
  destruct (handleLine h line1 b) as [b1 evs1] eqn:E1.
  destruct (handleLine h line2 b) as [b2 evs2] eqn:E2.
  cbn [fst snd] in *. rewrite H12, H21. cbn [fst snd].
  rewrite !app_nil_r. repeat split. 
Qed.

Lemma X6_responses_commute_witness :
  snd (handleLine host_installed reply_error_unprintable
         (fst (handleLine host_installed reply_unknown one_pending)))
  = [ConsoleError [lit "[OmniAgentPay] Invalid JSON from sidecar:";
                   reply_error_unprintable]] /\
  fst (handleLines host_installed [reply_error_unprintable; reply_unknown]
         one_pending)
  = one_pending.
Proof.
  assert (Hne : forall r1 r2 k,
            JSON_parse host_installed (trim reply_error_unprintable) = Some r1 ->
            JSON_parse host_installed (trim reply_unknown) = Some r2 ->
            key_of (get (lit "id") r1) = Some k ->
            key_of (get (lit "id") r2) = Some k -> False).
  { intros r1 r2 k H1 H2. vm_compute in H1, H2.
    inversion H1; inversion H2; subst. vm_compute. congruence. }
  destruct (X6_responses_commute host_installed reply_error_unprintable
              reply_unknown one_pending Hne) as (H1 & _ & H3 & _).
  split.
  - rewrite H1. reflexivity.
  - rewrite H3. reflexivity.
Defined.

End RoundTrip.

(* ===================================================================== *)
(** ** What the worker reads on its stdin *)
(* ===================================================================== *)

Section StdinStream.

Import Examples.
Local Open Scope Z_scope.


Lemma spawns_app (evs1 evs2 : list event) :
  spawns (evs1 ++ evs2) = spawns evs1 ++ spawns evs2.
Proof.
  induction evs1 as [|e evs1 IH]; [reflexivity|].
  destruct e; simpl; rewrite ?IH; reflexivity.
Qed.

Lemma write_targets_app (evs1 evs2 : list event) :
  write_targets (evs1 ++ evs2) = write_targets evs1 ++ write_targets evs2.
Proof.
  induction evs1 as [|e evs1 IH]; [reflexivity|].
  destruct e; simpl; rewrite ?IH; reflexivity.
Qed.

(** Output of the worker spawns nothing, writes nothing and kills
    nothing. *)
Lemma reports_are_quiet (evs : list event) :
  Forall (fun e => is_report_or_settlement e = true) evs ->
  spawns evs = [] /\ writes evs = [] /\ write_targets evs = [] /\ kills evs = [].
Proof.
  induction 1 as [|e evs He Hevs (IH1 & IH2 & IH3 & IH4)]; [repeat split|].
  destruct e; try discriminate; simpl; repeat split; assumption.
Qed.

Lemma on_stdout_data_quiet (h : Host) (data : list byte) (b : Bridge) :
  spawns (snd (on_stdout_data h data b)) = [] /\
  writes (snd (on_stdout_data h data b)) = [] /\
  write_targets (snd (on_stdout_data h data b)) = [] /\
  kills (snd (on_stdout_data h data b)) = [].
Proof.
  apply reports_are_quiet. unfold on_stdout_data. rewrite handleData_eq.
  cbn [snd]. apply handleLines_account.
Qed.











End StdinStream.

(* ===================================================================== *)
(** ** Each promise is settled at most once *)
(* ===================================================================== *)

Section AtMostOnce.

Import Examples.
Local Open Scope Z_scope.













End AtMostOnce.

(* ===================================================================== *)
(** ** The worker is started once *)
(* ===================================================================== *)

Section LazyStart.

Import Examples.
Local Open Scope Z_scope.

(** With a worker attached, calls of [send] and output of the worker keep
    it attached, spawn nothing and write to it only. *)
Lemma run_attached (tr : list (Host * action)) (b : Bridge) (c : ChildProcess) :
  Forall (fun ha => is_send_or_data (snd ha) = true) tr ->
  child b = Some c ->
  spawns (snd (run tr b)) = [] /\
  Forall (fun c' => c' = c) (write_targets (snd (run tr b))) /\
  child (fst (run tr b)) = Some c.
Proof.
  intros Htr. revert b. induction Htr as [|[h a] tr Ha Htr IH]; intros b Hc.
  - simpl. repeat split; [constructor | exact Hc].
  - rewrite run_cons. cbn [fst snd]. rewrite spawns_app, write_targets_app.
    destruct a as [ |p method params| |data|code|e0 listened]; try discriminate.
    + cbn [step]. rewrite (send_attached h _ _ _ _ _ Hc). cbn [settle fst snd].
      destruct (IH (set_pendingRequests
                      (<[js_incr (requestId b) := p]> (pendingRequests b))
                      (set_requestId (js_incr (requestId b)) b)) Hc)
        as (Hs & Hw & Hch).
      rewrite Hs. split; [reflexivity|]. split; [|exact Hch].
      constructor; [reflexivity | exact Hw].
    + cbn [step]. destruct (on_stdout_data_quiet h data b) as (Hs0 & _ & Hw0 & _).
      rewrite Hs0, Hw0.
      assert (Hc' : child (fst (on_stdout_data h data b)) = Some c).
      { unfold on_stdout_data.
        pose proof (handleData_only_removes_but_buffer h (Utf8.toString data) b)
          as (_ & Hch & _). simpl in Hch. rewrite Hch. exact Hc. }
      apply (IH _ Hc').
Qed.

(** X9. The worker is started lazily and once. Along a history of an
    instance made of calls of [send] and output of the worker only (no
    [start()], no [stop()], no exit of the worker), either no call went
    through and nothing was spawned or written, or exactly one worker was
    spawned, by the first call that went through, every write went to this
    worker, and it is still attached at the end. *)
Theorem X9_worker_spawned_once
    (tr : list (Host * action)) (bp : option jsstring) :
  Forall (fun ha => is_send_or_data (snd ha) = true) tr ->
  (sent_ids tr (new_bridge bp) = [] /\
   spawns (snd (run tr (new_bridge bp))) = [] /\
   write_targets (snd (run tr (new_bridge bp))) = [] /\
   child (fst (run tr (new_bridge bp))) = None) \/
  (sent_ids tr (new_bridge bp) <> [] /\
   exists path,
     spawns (snd (run tr (new_bridge bp))) = [path] /\
     Forall (fun c => c = Spawned path)
            (write_targets (snd (run tr (new_bridge bp)))) /\
     child (fst (run tr (new_bridge bp))) = Some (Spawned path)).
Proof.
  intros Htr.
  assert (Hgen : forall b, child b = None ->
            (sent_ids tr b = [] /\ spawns (snd (run tr b)) = [] /\
             write_targets (snd (run tr b)) = [] /\
             child (fst (run tr b)) = None) \/
            (sent_ids tr b <> [] /\
             exists path,
               spawns (snd (run tr b)) = [path] /\
               Forall (fun c => c = Spawned path) (write_targets (snd (run tr b))) /\
               child (fst (run tr b)) = Some (Spawned path)));
    [|apply Hgen; reflexivity].
  induction Htr as [|[h a] tr Ha Htr IH]; intros b Hc.
  - left. repeat split. exact Hc.
  - rewrite run_cons. cbn [fst snd sent_ids].
    rewrite spawns_app, write_targets_app.
    destruct a as [ |p method params| |data|code|e0 listened]; try discriminate.
    + cbn [step allocated].
      destruct (getBinaryPath h b) as [path|e] eqn:Hp.
      * right. rewrite (send_launch h _ _ _ _ _ Hc Hp). cbn [settle fst snd].
        split; [discriminate|]. exists path.
        destruct (run_attached tr
                    (set_pendingRequests
                       (<[js_incr (requestId b) := p]> (pendingRequests b))
                       (set_requestId (js_incr (requestId b))
                          (set_child (Some (Spawned path)) b)))
                    (Spawned path) Htr eq_refl) as (Hs & Hw & Hch).
        rewrite Hs. split; [reflexivity|]. split; [|exact Hch].
        constructor; [reflexivity | exact Hw].
      * rewrite (send_launch_failure h _ _ _ _ _ Hc Hp). cbn [settle fst snd app].
        apply (IH b Hc).
    + cbn [step allocated app].
      destruct (on_stdout_data_quiet h data b) as (Hs0 & _ & Hw0 & _).
      rewrite Hs0, Hw0. cbn [app].
      apply IH. unfold on_stdout_data.
      pose proof (handleData_only_removes_but_buffer h (Utf8.toString data) b)
        as (_ & Hch & _). simpl in Hch. rewrite Hch. exact Hc.
Qed.

Lemma X9_worker_spawned_once_witness :
  Forall (fun ha => is_send_or_data (snd ha) = true) MoreExamples.three_calls /\
  spawns (snd (run MoreExamples.three_calls (new_bridge None))) = [prod_path] /\
  Forall (fun c => c = Spawned prod_path)
         (write_targets (snd (run MoreExamples.three_calls (new_bridge None)))).
Proof.
  assert (Htr : Forall (fun ha => is_send_or_data (snd ha) = true)
                       MoreExamples.three_calls)
    by (repeat constructor).
  split; [exact Htr|].
  destruct (X9_worker_spawned_once _ None Htr)
    as [(Hids & _)|(_ & path & Hs & Hw & _)].
  - vm_compute in Hids. discriminate.
  - assert (Hpath : path = prod_path).
    { assert (Hsp : spawns (snd (run MoreExamples.three_calls (new_bridge None)))
                    = [prod_path]) by reflexivity.
      rewrite Hsp in Hs. inversion Hs. reflexivity. }
    subst path. split; assumption.
Defined.

End LazyStart.

(* ===================================================================== *)
(** ** White space around a line *)
(* ===================================================================== *)

Section LineEndings.

Import Examples.

Lemma trimStart_snoc_space (s : jsstring) (c : N) :
  is_space c = true ->
  trimStart (s ++ [c]) = match trimStart s with
                         | [] => []
                         | _ :: _ => trimStart s ++ [c]
                         end.
Proof.
  intros Hc. induction s as [|d s IH]; simpl.
  - rewrite Hc. reflexivity.
  - destruct (is_space d); [exact IH | reflexivity].
Qed.

Lemma trim_snoc_space (s : jsstring) (c : N) :
  is_space c = true -> trim (s ++ [c]) = trim s.
Proof.
  intros Hc. unfold trim, trimEnd.
  assert (Hgen : forall t, trimStart (t ++ [c])
                           = match trimStart t with
                             | [] => []
                             | _ :: _ => trimStart t ++ [c]
                             end) by (intros t; apply trimStart_snoc_space, Hc).
  rewrite Hgen. destruct (trimStart s) as [|d t] eqn:Ht; [reflexivity|].
  rewrite rev_app_distr. simpl. rewrite Hc. reflexivity.
Qed.

Lemma trim_cons_space (s : jsstring) (c : N) :
  is_space c = true -> trim (c :: s) = trim s.
Proof. intros Hc. unfold trim. simpl. rewrite Hc. reflexivity. Qed.

(** A line is handled according to its trimmed text alone. *)
Lemma handleLine_trim (h : Host) (l1 l2 : jsstring) (b : Bridge) :
  trim l1 = trim l2 -> handleLine h l1 b = handleLine h l2 b.
Proof.
  intros Ht. unfold handleLine, classify. rewrite Ht. reflexivity.
Qed.

(** X10. White space around a line does not count: a line with a carriage
    return (or any other white space character) added at its end or at its
    beginning is handled exactly as the line itself, so a worker that ends
    its lines with CR LF is understood. *)
Theorem X10_surrounding_space_is_ignored
    (h : Host) (line : jsstring) (c : N) (b : Bridge) :
  is_space c = true ->
  handleLine h (line ++ [c]) b = handleLine h line b /\
  handleLine h (c :: line) b = handleLine h line b.
Proof.
  intros Hc. split; apply handleLine_trim.
  - apply trim_snoc_space, Hc.
  - apply trim_cons_space, Hc.
Qed.

Lemma X10_surrounding_space_is_ignored_witness :
  is_space 13%N = true /\
  handleLine host_installed (reply_result ++ [13%N]) one_pending
  = (set_pendingRequests ∅ one_pending, [Resolve 7%nat (Some (JBool true))]).
Proof.
  assert (Hc : is_space 13%N = true) by reflexivity.
  split; [exact Hc|].
  rewrite (proj1 (X10_surrounding_space_is_ignored host_installed reply_result
                    13%N one_pending Hc)).
  reflexivity.
Defined.

End LineEndings.

(* ===================================================================== *)
(** ** The client *)
(* ===================================================================== *)

Section ClientFacts.

Import Examples Client.
Local Open Scope Z_scope.



Lemma all_methods_complete (m : api_method) : m ∈ all_methods.
Proof. destruct m; apply list_elem_of_In; simpl; tauto. Qed.

Lemma method_names_distinct_all :
  Forall (fun m1 =>
            Forall (fun m2 => method_name m1 = method_name m2 -> m1 = m2)
                   all_methods) all_methods.
Proof. apply (bool_decide_unpack _). vm_compute. reflexivity. Qed.

(** X11. The methods of the client address different methods of the
    worker: no two of the thirty methods give the same method name to
    [bridge.send]. The names are made of lower case letters and underscores,
    so that they appear unescaped in the request line. *)
Theorem X11_method_names_are_distinct (m1 m2 : api_method) :
  (method_name m1 = method_name m2 -> m1 = m2) /\
  Forall (fun c => c = 95%N \/ (97 <= c <= 122)%N) (method_name m1) /\
  quote (method_name m1) = 34%N :: method_name m1 ++ [34%N].
Proof.
  split; [|split].
  - pose proof method_names_distinct_all as Hall.
    rewrite Forall_forall in Hall.
    specialize (Hall m1 (all_methods_complete m1)).
    rewrite Forall_forall in Hall.
    exact (Hall m2 (all_methods_complete m2)).
  - destruct m1; apply (bool_decide_unpack _); vm_compute; reflexivity.
  - destruct m1; vm_compute; reflexivity.
Qed.

Lemma X11_method_names_are_distinct_witness :
  method_name addBudgetGuard <> method_name addBudgetGuardForSet.
Proof.
  intros H.
  pose proof (proj1 (X11_method_names_are_distinct addBudgetGuard
                       addBudgetGuardForSet) H) as Heq.
  discriminate Heq.
Defined.



(** X13. The constructor touches two variables of the environment at most:
    CIRCLE_API_KEY is set to the [apiKey] of the configuration when this is
    a non-empty string, ENTITY_SECRET to its [entitySecret] likewise; a
    credential that is absent or empty leaves the variable as it was, no
    variable is removed and no other variable changes. The instance starts
    with a fresh bridge for the configured path. *)
Theorem X13_constructor_sets_credentials
    (config : OmniAgentPayConfig) (env : environment) :
  let env' := snd (constructor (Some config) env) in
  bridge (fst (constructor (Some config) env))
  = new_bridge (cfg_binaryPath config) /\
  env' !! lit "CIRCLE_API_KEY"
  = (if truthy_path (apiKey config) then apiKey config
     else env !! lit "CIRCLE_API_KEY") /\
  env' !! lit "ENTITY_SECRET"
  = (if truthy_path (entitySecret config) then entitySecret config
     else env !! lit "ENTITY_SECRET") /\
  (forall name, name <> lit "CIRCLE_API_KEY" -> name <> lit "ENTITY_SECRET" ->
                env' !! name = env !! name) /\
  (forall name, is_Some (env !! name) -> is_Some (env' !! name)).
Proof.
  assert (Hset : forall name v e k,
            set_if_truthy name v e !! k
            = if decide (name = k)
              then (if truthy_path v then v else e !! k)
              else e !! k).
  { intros name v e k. unfold set_if_truthy, truthy_path, environment in *.
    destruct v as [s|]; [|destruct (decide _); reflexivity].
    destruct (truthy_string s); cbv beta iota.
    - rewrite lookup_insert. destruct (decide (name = k)); reflexivity.
    - destruct (decide _); reflexivity. }
  assert (Hkeys : lit "ENTITY_SECRET" <> lit "CIRCLE_API_KEY")
    by (vm_compute; discriminate).
  cbv zeta. unfold constructor. cbn [fst snd default].
  split; [reflexivity|]. split; [|split; [|split]].
  - rewrite !Hset. rewrite decide_False by exact Hkeys.
    rewrite decide_True by reflexivity. reflexivity.
  - rewrite !Hset. rewrite decide_True by reflexivity.
    rewrite decide_False by congruence. reflexivity.
  - intros name H1 H2. rewrite !Hset.
    rewrite !decide_False by congruence. reflexivity.
  - intros name Hsome.
    assert (Hkeep : forall key v (e : environment),
              is_Some (e !! name) -> is_Some (set_if_truthy key v e !! name)).
    { intros key v e He. rewrite Hset. destruct (decide (key = name)); [|exact He].
      destruct v as [s|]; simpl; [|exact He].
      destruct (truthy_string s); [eauto | exact He]. }
    apply Hkeep, Hkeep, Hsome.
Qed.

Lemma X13_constructor_sets_credentials_witness :
  snd (constructor
         (Some {| cfg_binaryPath := None; apiKey := Some [];
                  entitySecret := Some (lit "s3cret") |})
         {[ lit "CIRCLE_API_KEY" := lit "from-env" ]})
  !! lit "CIRCLE_API_KEY" = Some (lit "from-env").
Proof.
  rewrite (proj1 (proj2 (X13_constructor_sets_credentials
             {| cfg_binaryPath := None; apiKey := Some [];
                entitySecret := Some (lit "s3cret") |}
             {[ lit "CIRCLE_API_KEY" := lit "from-env" ]}))).
  reflexivity.
Defined.

End ClientFacts.

(* ===================================================================== *)
(** ** The install script *)
(* ===================================================================== *)

Section InstallFacts.

Import Install.
Local Open Scope Z_scope.

Lemma str_eqb_eq (s t : jsstring) : str_eqb s t = true <-> s = t.
Proof. unfold str_eqb. apply bool_decide_eq_true. Qed.

Lemma str_eqb_neq (s t : jsstring) : str_eqb s t = false <-> s <> t.
Proof. unfold str_eqb. apply bool_decide_eq_false. Qed.

(** The platforms the script has an asset for. *)
Lemma assetName_cases (h : InstallHost) :
  (platform h = lit "linux" /\ arch h = lit "x64" /\
   assetName h = Normal (lit "omniagentpay-server-linux-x64")) \/
  (platform h = lit "darwin" /\ (arch h = lit "arm64" \/ arch h = lit "x64") /\
   assetName h = Normal (lit "omniagentpay-server-darwin-x64")) \/
  (platform h = lit "win32" /\ arch h = lit "x64" /\
   assetName h = Normal (lit "omniagentpay-server-win-x64.exe")) \/
  (~ (platform h = lit "linux" /\ arch h = lit "x64") /\
   ~ (platform h = lit "darwin" /\ (arch h = lit "arm64" \/ arch h = lit "x64")) /\
   ~ (platform h = lit "win32" /\ arch h = lit "x64") /\
   assetName h
   = Throw (ErrorOf (Some (JStr (lit "Unsupported platform: " ++ platform h
                                 ++ lit "-" ++ arch h))))).
Proof.
  unfold assetName.
  destruct (str_eqb (platform h) (lit "linux") && str_eqb (arch h) (lit "x64"))
    eqn:H1.
  { apply andb_prop in H1 as [Hp Ha]. apply str_eqb_eq in Hp, Ha. auto. }
  destruct (str_eqb (platform h) (lit "darwin") && str_eqb (arch h) (lit "arm64"))
    eqn:H2.
  { apply andb_prop in H2 as [Hp Ha]. apply str_eqb_eq in Hp, Ha. auto 6. }
  destruct (str_eqb (platform h) (lit "darwin") && str_eqb (arch h) (lit "x64"))
    eqn:H3.
  { apply andb_prop in H3 as [Hp Ha]. apply str_eqb_eq in Hp, Ha. auto 6. }
  destruct (str_eqb (platform h) (lit "win32") && str_eqb (arch h) (lit "x64"))
    eqn:H4.
  { apply andb_prop in H4 as [Hp Ha]. apply str_eqb_eq in Hp, Ha. auto 6. }
  right. right. right.
  apply andb_false_iff in H1, H2, H3, H4.
  rewrite !str_eqb_neq in H1, H2, H3, H4.
  repeat split; try reflexivity; tauto.
Qed.

(** X14. [getAssetUrl] knows four platforms: it returns a URL exactly for
    linux/x64, darwin/arm64, darwin/x64 and win32/x64, and throws
    "Unsupported platform: <platform>-<arch>" for every other pair. The URL
    is the release download address of the repository for the version of
    the package; darwin/arm64 is given the same asset as darwin/x64. *)
Theorem X14_getAssetUrl_supported_platforms (h : InstallHost) :
  let supported :=
    (platform h = lit "linux" /\ arch h = lit "x64") \/
    (platform h = lit "darwin" /\ (arch h = lit "arm64" \/ arch h = lit "x64")) \/
    (platform h = lit "win32" /\ arch h = lit "x64") in
  (supported ->
     exists name,
       assetName h = Normal name /\
       getAssetUrl h
       = Normal (lit "https://github.com/omniagentpay/omniagentpay/releases/download/v"
                 ++ PACKAGE_VERSION h ++ lit "/" ++ name) /\
       (platform h = lit "darwin" -> name = lit "omniagentpay-server-darwin-x64")) /\
  (~ supported ->
     getAssetUrl h
     = Throw (ErrorOf (Some (JStr (lit "Unsupported platform: " ++ platform h
                                   ++ lit "-" ++ arch h))))).
Proof.
  cbv zeta. unfold getAssetUrl.
  destruct (assetName_cases h)
    as [(Hp & Ha & Hn)|[(Hp & Ha & Hn)|[(Hp & Ha & Hn)|(N1 & N2 & N3 & Hn)]]];
    rewrite Hn.
  - split; [|tauto]. intros _. eexists. split; [reflexivity|].
    split; [reflexivity|]. rewrite Hp. intros H. vm_compute in H. discriminate.
  - split; [|tauto]. intros _. eexists. split; [reflexivity|].
    split; reflexivity.
  - split; [|tauto]. intros _. eexists. split; [reflexivity|].
    split; [reflexivity|]. rewrite Hp. intros H. vm_compute in H. discriminate.
  - split; [tauto|]. intros _. reflexivity.
Qed.

Lemma X14_getAssetUrl_supported_platforms_witness :
  getAssetUrl (MoreExamples.install_host (lit "darwin") (lit "arm64") [])
  = Normal (lit "https://github.com/omniagentpay/omniagentpay/releases/download/v0.0.1/omniagentpay-server-darwin-x64") /\
  getAssetUrl (MoreExamples.install_host (lit "linux") (lit "arm64") [])
  = Throw (ErrorOf (Some (JStr (lit "Unsupported platform: linux-arm64")))).
Proof.
  split.
  - destruct (proj1 (X14_getAssetUrl_supported_platforms
                       (MoreExamples.install_host (lit "darwin") (lit "arm64") []))
                (or_intror (or_introl (conj eq_refl (or_introl eq_refl)))))
      as (name & _ & Hurl & Hname).
    rewrite Hurl, (Hname eq_refl). reflexivity.
  - rewrite (proj2 (X14_getAssetUrl_supported_platforms
                      (MoreExamples.install_host (lit "linux") (lit "arm64") []))).
    + reflexivity.
    + vm_compute. intros [[_ H]|[[H _]|[H _]]]; discriminate.
Defined.

(** X15. The asset downloaded and the file it is saved as agree on the
    extension: whenever [getAssetUrl] returns, the asset name ends in .exe
    exactly when the name of the installed binary does, that is, on win32
    only. *)
Theorem X15_asset_and_binary_extension (h : InstallHost) (name : jsstring) :
  assetName h = Normal name ->
  (lit ".exe" `suffix_of` name <-> lit ".exe" `suffix_of` BIN_NAME h) /\
  (lit ".exe" `suffix_of` BIN_NAME h <-> platform h = lit "win32").
Proof.
  intros Hname.
  assert (Hbin : lit ".exe" `suffix_of` BIN_NAME h <-> platform h = lit "win32").
  { unfold BIN_NAME. destruct (str_eqb (platform h) (lit "win32")) eqn:Hw.
    - apply str_eqb_eq in Hw. split; [intros _; exact Hw|]. intros _.
      apply (bool_decide_unpack _). vm_compute. reflexivity.
    - apply str_eqb_neq in Hw. split; [|contradiction].
      intros Hs. exfalso. revert Hs. apply (bool_decide_unpack _).
      vm_compute. reflexivity. }
  split; [|exact Hbin]. rewrite Hbin.
  destruct (assetName_cases h)
    as [(Hp & Ha & Hn)|[(Hp & Ha & Hn)|[(Hp & Ha & Hn)|(N1 & N2 & N3 & Hn)]]];
    rewrite Hn in Hname; inversion Hname; subst name; rewrite Hp.
  - split; intros Hs; exfalso; revert Hs; apply (bool_decide_unpack _);
      vm_compute; reflexivity.
  - split; intros Hs; exfalso; revert Hs; apply (bool_decide_unpack _);
      vm_compute; reflexivity.
  - split; intros _; [reflexivity|].
    apply (bool_decide_unpack _). vm_compute. reflexivity.
Qed.

Lemma X15_asset_and_binary_extension_witness :
  assetName (MoreExamples.install_host (lit "win32") (lit "x64") [])
  = Normal (lit "omniagentpay-server-win-x64.exe") /\
  lit ".exe" `suffix_of`
    BIN_NAME (MoreExamples.install_host (lit "win32") (lit "x64") []).
Proof.
  assert (Hn : assetName (MoreExamples.install_host (lit "win32") (lit "x64") [])
               = Normal (lit "omniagentpay-server-win-x64.exe")) by reflexivity.
  split; [exact Hn|].
  apply (proj2 (X15_asset_and_binary_extension _ _ Hn)). reflexivity.
Defined.

(** X16. What [downloadBinary] does before any response. The bin directory
    is created first when it is missing, and only then. With a local build
    present the binary is copied from it and made executable (mode 0o755),
    without any network access and on any platform, supported or not.
    Without a local build, the script opens the file of the binary and makes
    one request, for the URL of [getAssetUrl]; on an unsupported platform it
    throws instead, before the file is opened or any request is made. *)
Theorem X16_downloadBinary_local_build_first (h : InstallHost) :
  let mkdir := if exists_at_start h (BIN_DIR h) then [] else [Mkdir (BIN_DIR h)] in
  (exists_at_start h (local_build_of h (BIN_NAME h)) = true ->
     downloadBinary h
     = (mkdir ++ [Log (lit "[omniagentpay] Found local build, copying...");
                  CopyFile (local_build_of h (BIN_NAME h)) (BIN_PATH h);
                  Chmod (BIN_PATH h) 493;
                  Log (lit "[omniagentpay] Local binary ready.")], None) /\
     List.filter is_get (fst (downloadBinary h)) = []) /\
  (exists_at_start h (local_build_of h (BIN_NAME h)) = false ->
     (forall url, getAssetUrl h = Normal url ->
        downloadBinary h
        = (mkdir ++ [Log (lit "[omniagentpay] Downloading binary from " ++ url
                          ++ lit "...");
                     CreateWriteStream (BIN_PATH h); HttpsGet url], None) /\
        List.filter is_get (fst (downloadBinary h)) = [HttpsGet url]) /\
     (forall e, getAssetUrl h = Throw e ->
        downloadBinary h = (mkdir, Some e) /\
        List.filter is_get (fst (downloadBinary h)) = [] /\
        CreateWriteStream (BIN_PATH h) ∉ fst (downloadBinary h))).
Proof.
  cbv zeta. unfold downloadBinary.
  destruct (exists_at_start h (BIN_DIR h)); cbn [negb];
    (split; [intros -> | intros ->];
     [ split; reflexivity
     | split; [intros url -> | intros e ->];
       [ split; reflexivity
       | split; [reflexivity | split; [reflexivity|]];
         cbn [fst]; intros Hin;
         repeat (apply elem_of_cons in Hin as [Hin|Hin]; [discriminate|]);
         inversion Hin ]]).
Qed.

Lemma X16_downloadBinary_local_build_first_witness :
  exists_at_start
    (MoreExamples.install_host (lit "freebsd") (lit "x64")
       [lit "/repo/dist/omniagentpay-server"])
    (local_build_of
       (MoreExamples.install_host (lit "freebsd") (lit "x64")
          [lit "/repo/dist/omniagentpay-server"])
       (BIN_NAME (MoreExamples.install_host (lit "freebsd") (lit "x64")
                    [lit "/repo/dist/omniagentpay-server"]))) = true /\
  downloadBinary (MoreExamples.install_host (lit "freebsd") (lit "x64")
                    [lit "/repo/dist/omniagentpay-server"])
  = ([Mkdir (lit "/pkg/bin");
      Log (lit "[omniagentpay] Found local build, copying...");
      CopyFile (lit "/repo/dist/omniagentpay-server")
               (lit "/pkg/bin/omniagentpay-server");
      Chmod (lit "/pkg/bin/omniagentpay-server") 493;
      Log (lit "[omniagentpay] Local binary ready.")], None).
Proof.
  assert (Hl : exists_at_start
    (MoreExamples.install_host (lit "freebsd") (lit "x64")
       [lit "/repo/dist/omniagentpay-server"])
    (local_build_of
       (MoreExamples.install_host (lit "freebsd") (lit "x64")
          [lit "/repo/dist/omniagentpay-server"])
       (BIN_NAME (MoreExamples.install_host (lit "freebsd") (lit "x64")
                    [lit "/repo/dist/omniagentpay-server"]))) = true)
    by reflexivity.
  split; [exact Hl|].
  rewrite (proj1 (proj1 (X16_downloadBinary_local_build_first _) Hl)).
  reflexivity.
Defined.

(** X17. The responses of a download. The binary is written and made
    executable only after a response with status 200, received at once or
    after one redirect (301 or 302), which is followed by a request for its
    [location]; every other status, and any status but 200 in answer to the
    redirect - a second redirect too - is logged and ends the script with
    exit code 1, nothing being written or made executable. *)
Theorem X17_download_needs_status_200
    (h : InstallHost) (status : Z) (location : jsstring) (redirect_status : Z) :
  let redirected := status = 302 \/ status = 301 in
  (status = 200 ->
     download h status location redirect_status
     = [PipeToFile; CloseFile; Chmod (BIN_PATH h) 493;
        Log (lit "[omniagentpay] Binary installed successfully.")]) /\
  (redirected -> redirect_status = 200 ->
     download h status location redirect_status
     = [HttpsGet location; PipeToFile; CloseFile; Chmod (BIN_PATH h) 493;
        Log (lit "[omniagentpay] Binary installed successfully.")]) /\
  (redirected -> redirect_status <> 200 ->
     download h status location redirect_status
     = [HttpsGet location; download_failed redirect_status; Exit 1]) /\
  (~ redirected -> status <> 200 ->
     download h status location redirect_status
     = [download_failed status;
        LogError (lit "If this is a new release, the binary might not be uploaded yet.");
        Exit 1]) /\
  (existsb is_chmod (download h status location redirect_status)
   = existsb is_pipe (download h status location redirect_status)) /\
  (existsb is_exit (download h status location redirect_status)
   = negb (existsb is_pipe (download h status location redirect_status))).
Proof.
  cbv zeta. unfold download, on_response, on_redirect_response.
  destruct (Z.eqb_spec status 302) as [H302|H302];
    destruct (Z.eqb_spec status 301) as [H301|H301];
    destruct (Z.eqb_spec status 200) as [H200|H200];
    destruct (Z.eqb_spec redirect_status 200) as [Hr|Hr];
    cbn [orb negb app existsb is_pipe on_finish];
    repeat split; intros; try reflexivity; try lia; tauto.
Qed.

Lemma X17_download_needs_status_200_witness :
  (302 = 302 \/ 302 = 301) /\ 302 <> 200 /\
  download (MoreExamples.install_host (lit "linux") (lit "x64") [])
           302 (lit "https://cdn.example/asset") 302
  = [HttpsGet (lit "https://cdn.example/asset"); download_failed 302; Exit 1].
Proof.
  assert (H1 : 302 = 302 \/ 302 = 301) by (left; reflexivity).
  assert (H2 : 302 <> 200) by lia.
  split; [exact H1|]. split; [exact H2|].
  exact (proj1 (proj2 (proj2 (X17_download_needs_status_200
           (MoreExamples.install_host (lit "linux") (lit "x64") [])
           302 (lit "https://cdn.example/asset") 302))) H1 H2).
Defined.

End InstallFacts.

(* ===================================================================== *)
(** ** Requests are pending until they are settled *)
(* ===================================================================== *)

Section Conservation.

Import Examples.
Local Open Scope Z_scope.





(** Only output of the worker changes the buffer. *)
Lemma step_buffer (h : Host) (a : action) (b : Bridge) :
  is_stdout_data a = false -> buffer (fst (step h a b)) = buffer b.
Proof.
  destruct a as [ |p method params| |data|code|e0 listened]; simpl; try reflexivity.
  - intros _. destruct (start h b) as [[b' evs]|e] eqn:Hs; [|reflexivity].
    apply start_fields in Hs as (_ & _ & _ & Hb). exact Hb.
  - intros _. destruct (send h p method params b) as [[b' evs]|e] eqn:Hs;
      [|reflexivity].
    apply send_registers in Hs as (_ & _ & _ & _ & Hb & _). exact Hb.
  - discriminate.
Qed.

(** X19. The buffer outlives the worker. No call of [start], [send] or
    [stop] and no exit of the worker changes the accumulation buffer: a
    partial line left by a worker is still there when the next worker
    writes, and is put in front of its first line. *)
Theorem X19_buffer_survives_restart
    (tr : list (Host * action)) (b : Bridge) (h : Host) (chunk : jsstring) :
  Forall (fun ha => is_stdout_data (snd ha) = false) tr ->
  buffer (fst (run tr b)) = buffer b /\
  take_lines (buffer (fst (run tr b))) chunk = take_lines (buffer b) chunk /\
  snd (handleData h chunk (fst (run tr b)))
  = snd (handleLines h (fst (take_lines (buffer b) chunk)) (fst (run tr b))).
Proof.
  intros Htr.
  assert (Hbuf : buffer (fst (run tr b)) = buffer b).
  { revert b. induction Htr as [|[h0 a] tr Ha Htr IH]; intros b; [reflexivity|].
    rewrite run_cons. cbn [fst]. rewrite IH. apply step_buffer, Ha. }
  split; [exact Hbuf|]. split; [rewrite Hbuf; reflexivity|].
  rewrite handleData_eq. cbn [snd]. rewrite Hbuf. reflexivity.
Qed.

Lemma X19_buffer_survives_restart_witness :
  Forall (fun ha => is_stdout_data (snd ha) = false)
         [(host_installed, ChildExit (Some 1));
          (host_installed, CallSend 8%nat (lit "pay") None)] /\
  snd (handleData host_installed (lit "ready" ++ [10%N])
         (fst (run [(host_installed, ChildExit (Some 1));
                    (host_installed, CallSend 8%nat (lit "pay") None)]
                   (set_buffer (lit "log: half a li") one_pending))))
  = [ConsoleError [lit "[OmniAgentPay Sidecar Log] log: half a liready"]].
Proof.
  assert (Htr : Forall (fun ha => is_stdout_data (snd ha) = false)
         [(host_installed, ChildExit (Some 1));
          (host_installed, CallSend 8%nat (lit "pay") None)])
    by (repeat constructor).
  split; [exact Htr|].
  rewrite (proj2 (proj2 (X19_buffer_survives_restart _
             (set_buffer (lit "log: half a li") one_pending)
             host_installed (lit "ready" ++ [10%N]) Htr))).
  reflexivity.
Defined.

End Conservation.
